(** * rn-upgrader-mcp: the [sync_xcode_project] tool of [src/index.ts]

    A shallow embedding of the Xcode project synchronisation performed by
    [handleToolCall] (case ["sync_xcode_project"]): the extension
    classifier, the search for a group holding source files, the search
    for the file reference to remove, the manual removal cascade, and the
    error handling around them.

    The [xcode] npm package and Node's [fs] and [path] modules are not
    part of the source: they are interfaces ([NodeHost], [XcodeLib]) over
    which every definition is parametrised. *)

From Stdlib Require Import String Ascii List Bool Arith Lia.
Import ListNotations.
Local Open Scope list_scope.
Local Open Scope string_scope.

Set Implicit Arguments.

(** ** JavaScript string operations used by the source

    Strings are sequences of ASCII characters; the separators the source
    looks for (slash, dot, double quote) are all ASCII. *)
Module Js.

Definition slash : ascii := "/"%char.
Definition dot : ascii := "."%char.
Definition dquote : ascii := ascii_of_nat 34.

(** [s.startsWith(pre)] *)
Fixpoint startsWith (s pre : string) : bool :=
  match pre, s with
  | EmptyString, _ => true
  | String _ _, EmptyString => false
  | String a pre', String b s' => Ascii.eqb a b && startsWith s' pre'
  end.

(** [s.substring(n)] *)
Fixpoint substring (n : nat) (s : string) : string :=
  match n, s with
  | O, _ => s
  | S _, EmptyString => EmptyString
  | S n', String _ s' => substring n' s'
  end.

(** [s.endsWith(suf)]: the last [suf.length] characters of [s] are [suf]. *)
Definition endsWith (s suf : string) : bool :=
  Nat.leb (String.length suf) (String.length s)
  && String.eqb (substring (String.length s - String.length suf) s) suf.

(** [s.includes(sub)] *)
Fixpoint includes (s sub : string) : bool :=
  startsWith s sub
  || match s with
     | EmptyString => false
     | String _ s' => includes s' sub
     end.

(** [s.split(c)] for a one-character separator: never the empty array. *)
Fixpoint split (c : ascii) (s : string) : list string :=
  match s with
  | EmptyString => [EmptyString]
  | String a s' =>
      if Ascii.eqb a c then EmptyString :: split c s'
      else match split c s' with
           | h :: t => String a h :: t
           | [] => [String a EmptyString]
           end
  end.

(** [arr.pop()] on the array [split] returned (its last element). *)
Definition pop (l : list string) : string := last l EmptyString.

(** [s.replace] of every double-quote character by nothing (the regular
    expression with the [g] flag at lines 668, 727 and 859). *)
Fixpoint stripQuotes (s : string) : string :=
  match s with
  | EmptyString => EmptyString
  | String a s' =>
      if Ascii.eqb a dquote then stripQuotes s' else String a (stripQuotes s')
  end.

Definition lowerChar (a : ascii) : ascii :=
  let n := nat_of_ascii a in
  if Nat.leb 65 n && Nat.leb n 90 then ascii_of_nat (n + 32) else a.

(** [s.toLowerCase()] on ASCII text. *)
Fixpoint toLowerCase (s : string) : string :=
  match s with
  | EmptyString => EmptyString
  | String a s' => String (lowerChar a) (toLowerCase s')
  end.

(** [arr.join(sep)] *)
Definition join (sep : string) (l : list string) : string := String.concat sep l.

(** Truthiness of a string: only the empty string is falsy. *)
Definition truthy (s : string) : bool := negb (String.eqb s EmptyString).

End Js.

(** ** Path classifier

    The four kinds the [add] branch distinguishes, and the test on the
    lowercased extension (lines 680-707; the [remove] branch repeats the
    same chain at lines 761-802). *)
Inductive Kind : Type := Source | Header | FrameworkOrLibrary | Resource.

Definition classify (ext : string) : Kind :=
  if (ext =? "swift") || (ext =? "m") || (ext =? "mm") || (ext =? "cpp") || (ext =? "c")
  then Source
  else if (ext =? "h") || (ext =? "hpp") then Header
  else if (ext =? "framework") || (ext =? "a") || (ext =? "dylib") then FrameworkOrLibrary
  else Resource.

(** [filePath.split('.').pop()?.toLowerCase()] *)
Definition extensionOf (filePath : string) : string :=
  Js.toLowerCase (Js.pop (Js.split Js.dot filePath)).

(** ** The object graph of a parsed project

    [project.hash.project.objects] as the source reads it: one table per
    [isa], keyed by identifier, in insertion order (the order of
    [for ... in] and [Object.entries] on the 24-character identifiers of
    a project file).  Next to each record the [xcode] parser stores a
    string under the key [<id>_comment].

    A table the project file has no section for is [undefined] in the
    source.  The loops over groups and build phases skip such a table
    (lines 660, 824, 837), so it is the empty table here; the file
    reference table is taken to be present, as every project file the
    tool is given has it.  The build file table is missing from a project
    that builds no file, and the source reads it without a test (line
    746): it is [None] then. *)
Inductive Entry (A : Type) : Type :=
| Obj (a : A)
| Comment (text : string).
Arguments Comment {A} text.

Definition Table (A : Type) : Type := list (string * Entry A).

(** An element of a [children] or [files] array. *)
Record Ref : Type := { value : string; comment : string }.

Record FileReference : Type := { path : option string; name : option string }.
Record BuildFile : Type := { fileRef : string }.
Record Group : Type := { children : list Ref }.
Record BuildPhase : Type := { files : list Ref }.

Record Project : Type := {
  PBXFileReference : Table FileReference;
  PBXBuildFile : option (Table BuildFile);
  PBXGroup : Table Group;
  PBXSourcesBuildPhase : Table BuildPhase;
  PBXResourcesBuildPhase : Table BuildPhase;
  PBXFrameworksBuildPhase : Table BuildPhase
}.

(** The build files of a project, none when it has no such table. *)
Definition buildFilesOf (p : Project) : Table BuildFile :=
  match PBXBuildFile p with
  | Some buildFiles => buildFiles
  | None => []
  end.

(** [table[key]] *)
Fixpoint get {A : Type} (t : Table A) (key : string) : option (Entry A) :=
  match t with
  | [] => None
  | (k, e) :: rest => if k =? key then Some e else get rest key
  end.

(** [delete table[key]] *)
Definition deleteKey {A : Type} (key : string) (t : Table A) : Table A :=
  filter (fun kv => negb (fst kv =? key)) t.

(** [key.includes('_comment')]: the entries every loop of the source skips. *)
Definition isCommentKey (key : string) : bool := Js.includes key "_comment".

(** The records a loop of the source visits: objects under a key that is
    not a comment key, in table order. *)
Fixpoint records {A : Type} (t : Table A) : list (string * A) :=
  match t with
  | [] => []
  | (k, Obj a) :: rest => if isCommentKey k then records rest else (k, a) :: records rest
  | (_, Comment _) :: rest => records rest
  end.

(** ** Exceptions and the state of one tool call *)
Inductive Exn : Type :=
| ErrorObject (message : string)
| OtherValue (shown : string).

Inductive Outcome (A : Type) : Type :=
| Returned (a : A)
| Thrown (e : Exn).
Arguments Thrown {A} e.

(** A computation on the parsed project, which the library's methods
    mutate in place: the project survives a throw. *)
Definition M (A : Type) : Type := Project -> Project * Outcome A.

Definition ret {A : Type} (a : A) : M A := fun p => (p, Returned a).

Definition bind {A B : Type} (m : M A) (k : A -> M B) : M B :=
  fun p =>
    match m p with
    | (p', Returned a) => k a p'
    | (p', Thrown e) => (p', Thrown e)
    end.

(** [try { m } catch (e) { h e }] *)
Definition tryCatch {A : Type} (m : M A) (h : Exn -> M A) : M A :=
  fun p =>
    match m p with
    | (p', Thrown e) => h e p'
    | r => r
    end.

Definition modify (f : Project -> Project) : M unit := fun p => (f p, Returned tt).

Notation "x <- m ;; k" := (bind m (fun x => k))
  (at level 61, m at next level, right associativity).
Notation "m ;;; k" := (bind m (fun _ => k))
  (at level 61, right associativity).

(** ** What the source imports

    Node's [fs] and [path], and the seven cases of the [switch] that do
    not touch the Xcode project (lines 277-582). *)
Record Args : Type := {
  projectPath : string;
  operation : string;
  filePath : string;
  others : list (string * string)
}.

Class NodeHost : Type := {
  existsSync : string -> bool;
  readdirSync : string -> Outcome (list string);
  joinPath : list string -> string;
  writeFileSync : string -> string -> Outcome unit;
  otherTools : string -> Args -> Outcome string
}.

(** The methods of the [xcode] package the source calls.  A method may
    throw, and may have changed the project before it does. *)
Class XcodeLib : Type := {
  parseSync : string -> Outcome Project;
  writeSync : Project -> Outcome string;
  pbxCreateGroup : string -> M string;
  addSourceFile : string -> string -> M unit;
  addHeaderFile : string -> string -> M unit;
  addFramework : string -> M unit;
  addResourceFile : string -> M unit;
  removeSourceFile : string -> M unit;
  removeHeaderFile : string -> M unit;
  removeFramework : string -> M unit;
  removeResourceFile : string -> M unit
}.

(** ** Adding a file: the search for a group (lines 656-678) *)

(** The callback of [group.children.some]: the child names a file
    reference whose path, quotes removed, ends in [.swift], [.m] or [.mm]. *)
Definition isSourceChild (project : Project) (child : Ref) : bool :=
  match get (PBXFileReference project) (value child) with
  | Some (Obj fileRef) =>
      match path fileRef with
      | Some p =>
          if Js.truthy p then
            let path := Js.stripQuotes p in
            Js.endsWith path ".swift" || Js.endsWith path ".m" || Js.endsWith path ".mm"
          else false
      | None => false
      end
  | _ => false
  end.

Definition hasSourceFiles (project : Project) (group : Group) : bool :=
  existsb (isSourceChild project) (children group).

(** The loop over [PBXGroup]: the key of the first group with at least one
    child and a source file among its children. *)
Fixpoint findSourceGroup (project : Project) (groups : Table Group) : option string :=
  match groups with
  | [] => None
  | (groupKey, e) :: rest =>
      if isCommentKey groupKey then findSourceGroup project rest
      else match e with
           | Obj group =>
               if Nat.ltb 0 (length (children group)) && hasSourceFiles project group
               then Some groupKey
               else findSourceGroup project rest
           | Comment _ => findSourceGroup project rest
           end
  end.

(** ** Removing a file: the search for its reference (lines 710-741) *)

(** [filePath.startsWith('ios/') ? filePath.substring(4) : filePath] *)
Definition normalizePath (filePath : string) : string :=
  if Js.startsWith filePath "ios/" then Js.substring 4 filePath else filePath.

(** [(refObj.path || refObj.name || '').replace(...)], for a record that
    passes the test [refObj.path || refObj.name]. *)
Definition refPathOf (refObj : FileReference) : option string :=
  match path refObj with
  | Some p => if Js.truthy p then Some (Js.stripQuotes p) else
      match name refObj with
      | Some n => if Js.truthy n then Some (Js.stripQuotes n) else None
      | None => None
      end
  | None =>
      match name refObj with
      | Some n => if Js.truthy n then Some (Js.stripQuotes n) else None
      | None => None
      end
  end.

Definition baseName (normalizedPath : string) : string :=
  Js.pop (Js.split Js.slash normalizedPath).

(** The five tests of the [if] at lines 731-735, joined by [||]. *)
Definition matchesPath (normalizedPath refPath : string) : bool :=
  let fileName := baseName normalizedPath in
  (refPath =? normalizedPath)
  || (refPath =? fileName)
  || Js.endsWith refPath ("/" ++ normalizedPath)
  || Js.endsWith refPath ("/" ++ fileName)
  || Js.endsWith normalizedPath ("/" ++ refPath).

Definition matchesRecord (normalizedPath : string) (refObj : FileReference) : bool :=
  match refPathOf refObj with
  | Some refPath => matchesPath normalizedPath refPath
  | None => false
  end.

(** The loop over [Object.entries(fileRefs)]: the key of the first record
    one of the tests accepts. *)
Fixpoint findFileRef (normalizedPath : string) (fileRefs : Table FileReference)
  : option string :=
  match fileRefs with
  | [] => None
  | (uuid, e) :: rest =>
      if isCommentKey uuid then findFileRef normalizedPath rest
      else match e with
           | Obj refObj =>
               if matchesRecord normalizedPath refObj then Some uuid
               else findFileRef normalizedPath rest
           | Comment _ => findFileRef normalizedPath rest
           end
  end.

(** The loop over [Object.entries(buildFiles)] (lines 745-753): the first
    build file whose [fileRef] is the reference found ([ref]). *)
Fixpoint findBuildFile (ref : string) (buildFiles : Table BuildFile)
  : option string :=
  match buildFiles with
  | [] => None
  | (uuid, e) :: rest =>
      if isCommentKey uuid then findBuildFile ref rest
      else match e with
           | Obj buildFile =>
               if fileRef buildFile =? ref then Some uuid
               else findBuildFile ref rest
           | Comment _ => findBuildFile ref rest
           end
  end.

(** ** Removing a file: the manual removal (lines 805-846) *)

(** [f.value !== buildFileUuid], where [buildFileUuid] may be [null]. *)
Definition differsFrom (buildFileUuid : option string) (f : Ref) : bool :=
  match buildFileUuid with
  | Some uuid => negb (value f =? uuid)
  | None => true
  end.

(** One build-phase table: every phase visited keeps the files that are
    not the build file. *)
Fixpoint filterPhases (buildFileUuid : option string) (section : Table BuildPhase)
  : Table BuildPhase :=
  match section with
  | [] => []
  | (phaseKey, e) :: rest =>
      (if isCommentKey phaseKey then (phaseKey, e)
       else match e with
            | Obj phase =>
                (phaseKey, Obj {| files := filter (differsFrom buildFileUuid) (files phase) |})
            | Comment _ => (phaseKey, e)
            end)
      :: filterPhases buildFileUuid rest
  end.

(** The group table: every group visited keeps the children that are not
    the file reference. *)
Fixpoint filterGroups (ref : string) (groups : Table Group) : Table Group :=
  match groups with
  | [] => []
  | (groupKey, e) :: rest =>
      (if isCommentKey groupKey then (groupKey, e)
       else match e with
            | Obj group =>
                (groupKey,
                 Obj {| children := filter (fun child => negb (value child =? ref))
                                           (children group) |})
            | Comment _ => (groupKey, e)
            end)
      :: filterGroups ref rest
  end.

(** [delete table[key]; delete table[key + '_comment']] *)
Definition deleteWithComment {A : Type} (key : string) (t : Table A) : Table A :=
  deleteKey (key ++ "_comment") (deleteKey key t).

Definition manualRemoval (ref : string) (buildFileUuid : option string)
  (project : Project) : Project :=
  {| PBXFileReference := deleteWithComment ref (PBXFileReference project);
     PBXBuildFile :=
       match buildFileUuid with
       | Some uuid =>
           if Js.truthy uuid
           then option_map (deleteWithComment uuid) (PBXBuildFile project)
           else PBXBuildFile project
       | None => PBXBuildFile project
       end;
     PBXGroup := filterGroups ref (PBXGroup project);
     PBXSourcesBuildPhase := filterPhases buildFileUuid (PBXSourcesBuildPhase project);
     PBXResourcesBuildPhase := filterPhases buildFileUuid (PBXResourcesBuildPhase project);
     PBXFrameworksBuildPhase := filterPhases buildFileUuid (PBXFrameworksBuildPhase project)
  |}.

(** The candidates listed when nothing matches (lines 854-862). *)
Fixpoint foundFiles (fileRefs : Table FileReference) : list string :=
  match fileRefs with
  | [] => []
  | (uuid, e) :: rest =>
      if isCommentKey uuid then foundFiles rest
      else match e with
           | Obj refObj =>
               match refPathOf refObj with
               | Some refPath => refPath :: foundFiles rest
               | None => foundFiles rest
               end
           | Comment _ => foundFiles rest
           end
  end.

(** The text of line 863; the source writes the two line breaks as the
    characters backslash and n. *)
Definition notFoundResult (normalizedPath : string) (found : list string) : string :=
  "File not found in project: " ++ normalizedPath ++ "\n\nFiles in project: "
  ++ Js.join ", " (firstn 10 found)
  ++ (if Nat.ltb 10 (length found) then "..." else "").

(** ** The two operations and the tool call *)

(** What the branch of an operation leaves to the code after it: a
    response returned at once, or a result text to report after writing
    the project back. *)
Inductive Step : Type :=
| Respond (text : string)
| Proceed (result : string).

Definition newline : string := String (ascii_of_nat 10) EmptyString.

(** The check mark that opens the success text (three bytes of UTF-8). *)
Definition checkMark : string :=
  String (ascii_of_nat 226) (String (ascii_of_nat 156) (String (ascii_of_nat 133) EmptyString)).

(** The [TypeError] of [Object.entries(undefined)]. *)
Definition noEntries : Exn :=
  ErrorObject "Cannot convert undefined or null to object".

(** [error instanceof Error ? error.message : "Unknown error"] *)
Definition messageOf (error : Exn) : string :=
  match error with
  | ErrorObject message => message
  | OtherValue _ => "Unknown error"
  end.

(** [`${error}`] *)
Definition showExn (error : Exn) : string :=
  match error with
  | ErrorObject message => "Error: " ++ message
  | OtherValue shown => shown
  end.

(** The response of the [catch] at lines 894-908. *)
Definition syncErrorText (error : Exn) : string :=
  "Error: " ++ messageOf error ++ newline ++ newline
  ++ "Please check:" ++ newline
  ++ "- File path is relative to ios/ directory" ++ newline
  ++ "- File exists (for add operation)" ++ newline
  ++ "- Project structure is valid".

(** The response of lines 879-893. *)
Definition updatedText (result : string) : string :=
  checkMark ++ " Xcode Project Updated" ++ newline ++ newline
  ++ result ++ newline ++ newline
  ++ "Next Steps:" ++ newline
  ++ "1. Run 'cd ios && pod install'" ++ newline
  ++ "2. Open .xcworkspace in Xcode" ++ newline
  ++ "3. Clean and rebuild (Cmd+Shift+K, then Cmd+B)".

Definition unknownOperationText (operation : string) : string :=
  "Error: Unknown operation '" ++ operation ++ "'. Use 'add' or 'remove'.".

(** A call of [writeFileSync]: the path and the data. *)
Definition Write : Type := (string * string)%type.

Section Tool.

Context {host : NodeHost} {lib : XcodeLib}.

(** [if (groupName) ... else ...] around a library call that takes a
    group (lines 682-688 and 692-697): the group found, or a new one. *)
Definition inGroup (groupName : option string) (fallback : string)
  (addTo : string -> M unit) : M unit :=
  match groupName with
  | Some g =>
      if Js.truthy g then addTo g
      else (newGroupKey <- pbxCreateGroup fallback ;; addTo newGroupKey)
  | None => newGroupKey <- pbxCreateGroup fallback ;; addTo newGroupKey
  end.

(** The branch [operation === "add"] (lines 638-707). *)
Definition syncAdd (iosPath filePath : string) : M Step :=
  let absoluteFilePath := joinPath [iosPath; filePath] in
  if negb (existsSync absoluteFilePath) then
    ret (Respond ("Error: File does not exist: " ++ absoluteFilePath))
  else
    let ext := extensionOf filePath in
    fun project =>
      let groupName := findSourceGroup project (PBXGroup project) in
      (match classify ext with
       | Source =>
           inGroup groupName "Sources" (addSourceFile filePath) ;;;
           ret (Proceed ("Added source file: " ++ filePath))
       | Header =>
           inGroup groupName "Headers" (addHeaderFile filePath) ;;;
           ret (Proceed ("Added header file: " ++ filePath))
       | FrameworkOrLibrary =>
           addFramework filePath ;;;
           ret (Proceed ("Added framework: " ++ filePath))
       | Resource =>
           addResourceFile filePath ;;;
           ret (Proceed ("Added resource file: " ++ filePath))
       end) project.

(** The library's own removal, tried first (lines 757-802): [true] when
    a call returned, [false] when every call tried threw. *)
Definition builtinRemoval (normalizedPath : string) : M bool :=
  let fileName := baseName normalizedPath in
  match classify (extensionOf normalizedPath) with
  | Source =>
      tryCatch (removeSourceFile normalizedPath ;;; ret true)
        (fun _ => tryCatch (removeSourceFile fileName ;;; ret true)
                    (fun _ => ret false))
  | Header =>
      tryCatch (removeHeaderFile normalizedPath ;;; ret true)
        (fun _ => tryCatch (removeHeaderFile fileName ;;; ret true)
                    (fun _ => ret false))
  | FrameworkOrLibrary =>
      tryCatch (removeFramework normalizedPath ;;; ret true) (fun _ => ret false)
  | Resource =>
      tryCatch (removeResourceFile normalizedPath ;;; ret true) (fun _ => ret false)
  end.

(** Every removal method the source tries for the path throws, the last
    one leaving the project [q]. *)
Definition removalsThrow (normalizedPath : string) (p q : Project) : Prop :=
  let fileName := baseName normalizedPath in
  match classify (extensionOf normalizedPath) with
  | Source =>
      exists q1 e1 e2,
        removeSourceFile normalizedPath p = (q1, Thrown e1)
        /\ removeSourceFile fileName q1 = (q, Thrown e2)
  | Header =>
      exists q1 e1 e2,
        removeHeaderFile normalizedPath p = (q1, Thrown e1)
        /\ removeHeaderFile fileName q1 = (q, Thrown e2)
  | FrameworkOrLibrary => exists e, removeFramework normalizedPath p = (q, Thrown e)
  | Resource => exists e, removeResourceFile normalizedPath p = (q, Thrown e)
  end.

(** The branch [operation === "remove"] (lines 709-864).  When the file
    reference is found, [Object.entries] of line 746 throws on a project
    without a build file table, before the [try] of line 756. *)
Definition syncRemove (filePath : string) : M string :=
  let normalizedPath := normalizePath filePath in
  fun project =>
    let notFound :=
      (project, Returned (notFoundResult normalizedPath
                            (foundFiles (PBXFileReference project)))) in
    match findFileRef normalizedPath (PBXFileReference project) with
    | Some ref =>
        if Js.truthy ref then
          match PBXBuildFile project with
          | None => (project, Thrown noEntries)
          | Some buildFiles =>
              let buildFileUuid := findBuildFile ref buildFiles in
              tryCatch
                (removed <- builtinRemoval normalizedPath ;;
                 (if removed : bool then ret tt
                  else modify (manualRemoval ref buildFileUuid)) ;;;
                 ret ("Removed file: " ++ normalizedPath))
                (fun error =>
                   ret ("Error removing file: " ++ normalizedPath ++ " - "
                        ++ showExn error))
                project
          end
        else notFound
    | None => notFound
    end.

(** The three branches on [operation] (lines 638, 709, 865). *)
Definition syncOperation (iosPath operation filePath : string) : M Step :=
  if operation =? "add" then syncAdd iosPath filePath
  else if operation =? "remove" then
    result <- syncRemove filePath ;; ret (Proceed result)
  else ret (Respond (unknownOperationText operation)).

(** The [try] block of lines 628-908: parse, operate, write back.  The
    second component lists the calls of [writeFileSync]. *)
Definition syncProject (pbxprojPath iosPath operation filePath : string)
  : Outcome string * list Write :=
  match parseSync pbxprojPath with
  | Thrown error => (Returned (syncErrorText error), [])
  | Returned project =>
      match syncOperation iosPath operation filePath project with
      | (_, Thrown error) => (Returned (syncErrorText error), [])
      | (_, Returned (Respond text)) => (Returned text, [])
      | (project', Returned (Proceed result)) =>
          match writeSync project' with
          | Thrown error => (Returned (syncErrorText error), [])
          | Returned data =>
              match writeFileSync pbxprojPath data with
              | Thrown error =>
                  (Returned (syncErrorText error), [(pbxprojPath, data)])
              | Returned _ =>
                  (Returned (updatedText result), [(pbxprojPath, data)])
              end
          end
      end
  end.

(** Case ["sync_xcode_project"] (lines 584-909). *)
Definition sync_xcode_project (args : Args) : Outcome string * list Write :=
  let projectRoot := projectPath args in
  let iosPath := joinPath [projectRoot; "ios"] in
  if negb (existsSync iosPath) then
    (Returned ("Error: iOS directory not found at " ++ iosPath), [])
  else
    match readdirSync iosPath with
    | Thrown error => (Thrown error, [])
    | Returned names =>
        match find (fun f => Js.endsWith f ".xcodeproj") names with
        | None => (Returned ("Error: No .xcodeproj found in " ++ iosPath), [])
        | Some xcodeProj =>
            let pbxprojPath := joinPath [iosPath; xcodeProj; "project.pbxproj"] in
            if negb (existsSync pbxprojPath) then
              (Returned ("Error: project.pbxproj not found at " ++ pbxprojPath), [])
            else syncProject pbxprojPath iosPath (operation args) (filePath args)
        end
    end.

(** The checks of lines 589-626 pass and name [pbxprojPath] as the project
    file. *)
Definition Located (args : Args) (pbxprojPath : string) : Prop :=
  let iosPath := joinPath [projectPath args; "ios"] in
  existsSync iosPath = true
  /\ exists names xcodeProj,
       readdirSync iosPath = Returned names
       /\ find (fun f => Js.endsWith f ".xcodeproj") names = Some xcodeProj
       /\ pbxprojPath = joinPath [iosPath; xcodeProj; "project.pbxproj"]
       /\ existsSync pbxprojPath = true.

Definition otherToolNames : list string :=
  [ "get_upgrade_workflow"; "get_current_rn_version"; "get_target_version";
    "get_upgrade_diff_files"; "get_file_specific_diff"; "analyze_file_type";
    "create_upgrade_todo_list" ].

(** The [switch] on the tool name (lines 276-913). *)
Definition toolSwitch (name : string) (args : Args) : Outcome string * list Write :=
  if name =? "sync_xcode_project" then sync_xcode_project args
  else if existsb (String.eqb name) otherToolNames then (otherTools name args, [])
  else (Thrown (ErrorObject ("Unknown tool: " ++ name)), []).

(** [handleToolCall] (lines 270-927); [args] is [None] when the request
    carries no arguments. *)
Definition handleToolCall (name : string) (args : option Args)
  : Outcome string * list Write :=
  match args with
  | None => (Thrown (ErrorObject "Missing arguments"), [])
  | Some a =>
      match toolSwitch name a with
      | (Thrown error, writes) => (Returned ("Error: " ++ messageOf error), writes)
      | returned => returned
      end
  end.

End Tool.

(** ** The specification's wording of the two searches

    These two definitions follow the text of the specification, not the
    source; they are what the source's searches are compared with. *)

(** Path Matcher (specification 4.4): four passes, each over every record
    before the next, the first match in table order within a pass. *)
Definition pass1 (normalizedPath refPath : string) : bool :=
  refPath =? normalizedPath.

Definition pass2 (normalizedPath refPath : string) : bool :=
  refPath =? baseName normalizedPath.

Definition pass3 (normalizedPath refPath : string) : bool :=
  Js.endsWith refPath ("/" ++ normalizedPath).

Definition pass4 (normalizedPath refPath : string) : bool :=
  Js.endsWith refPath ("/" ++ baseName normalizedPath)
  || Js.endsWith normalizedPath ("/" ++ refPath).

Definition recordPasses (pass : string -> bool) (kv : string * FileReference) : bool :=
  match refPathOf (snd kv) with
  | Some refPath => pass refPath
  | None => false
  end.

Definition firstInPass (pass : string -> bool) (fileRefs : Table FileReference)
  : option string :=
  option_map fst (find (recordPasses pass) (records fileRefs)).

Definition orElse {A : Type} (x y : option A) : option A :=
  match x with
  | Some _ => x
  | None => y
  end.

Definition fourPassMatcher (normalizedPath : string) (fileRefs : Table FileReference)
  : option string :=
  orElse (firstInPass (pass1 normalizedPath) fileRefs)
    (orElse (firstInPass (pass2 normalizedPath) fileRefs)
       (orElse (firstInPass (pass3 normalizedPath) fileRefs)
          (firstInPass (pass4 normalizedPath) fileRefs))).

(** The existing paths of the specification: the stored path of every
    file record that has one, in table order. *)
Definition storedPaths (fileRefs : Table FileReference) : list string :=
  flat_map (fun kv => match refPathOf (snd kv) with
                      | Some refPath => [refPath]
                      | None => []
                      end)
    (records fileRefs).

(** The kind of a stored file record: the classifier on the extension of
    its path (specification 3: the kind is derived from the Path
    Classifier). *)
Definition recordKind (refObj : FileReference) : option Kind :=
  option_map (fun refPath => classify (extensionOf refPath)) (refPathOf refObj).

Definition kindIs (k : Kind) (o : option Kind) : bool :=
  match o, k with
  | Some Source, Source | Some Header, Header
  | Some FrameworkOrLibrary, FrameworkOrLibrary | Some Resource, Resource => true
  | _, _ => false
  end.

(** Group Locator (specification 4.3): the first group, in table order,
    with a child that is a file record of kind source. *)
Definition holdsSourceRecord (project : Project) (kv : string * Group) : bool :=
  existsb
    (fun child =>
       match get (PBXFileReference project) (value child) with
       | Some (Obj refObj) => kindIs Source (recordKind refObj)
       | _ => false
       end)
    (children (snd kv)).

Definition groupLocatorSpec (project : Project) : option string :=
  option_map fst (find (holdsSourceRecord project) (records (PBXGroup project))).

(** The test the source's loop applies to a group it visits. *)
Definition groupQualifies (project : Project) (kv : string * Group) : bool :=
  Nat.ltb 0 (length (children (snd kv))) && hasSourceFiles project (snd kv).

(** ** Build phases by role, and what [add] owes each kind (specification 3, 4.5) *)
Inductive Role : Type := Sources | Resources | Frameworks.

Definition phasesOf (role : Role) (p : Project) : Table BuildPhase :=
  match role with
  | Sources => PBXSourcesBuildPhase p
  | Resources => PBXResourcesBuildPhase p
  | Frameworks => PBXFrameworksBuildPhase p
  end.

Definition roleOf (k : Kind) : option Role :=
  match k with
  | Source => Some Sources
  | Resource => Some Resources
  | FrameworkOrLibrary => Some Frameworks
  | Header => None
  end.

Definition keysOf {A : Type} (t : Table A) : list string := map fst t.

(** Between [p] and [p'] a file record for [filePath] and a build
    membership referencing it were created, and the membership is the last
    member of a phase of the given role, after the members that phase had. *)
Definition MembershipCreated (role : Role) (filePath : string) (p p' : Project) : Prop :=
  exists f b refObj,
    ~ In f (keysOf (PBXFileReference p))
    /\ In (f, Obj refObj) (PBXFileReference p')
    /\ path refObj = Some filePath
    /\ ~ In b (keysOf (buildFilesOf p))
    /\ In (b, Obj {| fileRef := f |}) (buildFilesOf p')
    /\ exists phaseKey before,
         In (phaseKey, Obj {| files := (before ++ [{| value := b; comment := filePath |}])%list |})
            (phasesOf role p')
         /\ (In (phaseKey, Obj {| files := before |}) (phasesOf role p)
             \/ (before = [] /\ ~ In phaseKey (keysOf (phasesOf role p)))).

(** Between [p] and [p'] no build membership was created and no phase
    changed. *)
Definition NoMembership (p p' : Project) : Prop :=
  PBXBuildFile p' = PBXBuildFile p
  /\ forall role, phasesOf role p' = phasesOf role p.

(** ** The library's [add] methods, from the specification *)
Module SpecModel.

Definition allKeys (p : Project) : list string :=
  (keysOf (PBXFileReference p) ++ keysOf (buildFilesOf p) ++ keysOf (PBXGroup p)
   ++ keysOf (PBXSourcesBuildPhase p) ++ keysOf (PBXResourcesBuildPhase p)
   ++ keysOf (PBXFrameworksBuildPhase p))%list.

Fixpoint zeros (n : nat) : string :=
  match n with
  | O => EmptyString
  | S n' => String "0"%char (zeros n')
  end.

(** Modelled from the spec: the generator of identifiers is the [xcode]
    package's and is missing from the source; invariant I5 asks only
    that a new identifier differ from every identifier present.  This one
    is longer than any of them. *)
Definition freshId (p : Project) : string :=
  zeros (S (list_max (map String.length (allKeys p)))).

Definition withFileReferences (t : Table FileReference) (p : Project) : Project :=
  {| PBXFileReference := t; PBXBuildFile := PBXBuildFile p; PBXGroup := PBXGroup p;
     PBXSourcesBuildPhase := PBXSourcesBuildPhase p;
     PBXResourcesBuildPhase := PBXResourcesBuildPhase p;
     PBXFrameworksBuildPhase := PBXFrameworksBuildPhase p |}.

Definition withBuildFiles (t : Table BuildFile) (p : Project) : Project :=
  {| PBXFileReference := PBXFileReference p; PBXBuildFile := Some t;
     PBXGroup := PBXGroup p;
     PBXSourcesBuildPhase := PBXSourcesBuildPhase p;
     PBXResourcesBuildPhase := PBXResourcesBuildPhase p;
     PBXFrameworksBuildPhase := PBXFrameworksBuildPhase p |}.

Definition withGroups (t : Table Group) (p : Project) : Project :=
  {| PBXFileReference := PBXFileReference p; PBXBuildFile := PBXBuildFile p; PBXGroup := t;
     PBXSourcesBuildPhase := PBXSourcesBuildPhase p;
     PBXResourcesBuildPhase := PBXResourcesBuildPhase p;
     PBXFrameworksBuildPhase := PBXFrameworksBuildPhase p |}.

Definition withPhases (role : Role) (t : Table BuildPhase) (p : Project) : Project :=
  {| PBXFileReference := PBXFileReference p; PBXBuildFile := PBXBuildFile p;
     PBXGroup := PBXGroup p;
     PBXSourcesBuildPhase :=
       match role with Sources => t | _ => PBXSourcesBuildPhase p end;
     PBXResourcesBuildPhase :=
       match role with Resources => t | _ => PBXResourcesBuildPhase p end;
     PBXFrameworksBuildPhase :=
       match role with Frameworks => t | _ => PBXFrameworksBuildPhase p end |}.

(** Modelled from the spec: step 2 of [add] (4.5), missing from the
    source: create the FileRecord under a fresh identifier. *)
Definition createFileRecord (filePath : string) (p : Project) : string * Project :=
  let f := freshId p in
  (f, withFileReferences
        (PBXFileReference p
         ++ [(f, Obj {| path := Some filePath; name := Some (baseName filePath) |})])%list
        p).

(** The first phase of a table gets one more member; a table without a
    phase gets a phase (containers are created when none is found,
    specification 3). *)
Fixpoint appendMember (member : Ref) (newKey : string) (t : Table BuildPhase)
  : Table BuildPhase :=
  match t with
  | [] => [(newKey, Obj {| files := [member] |})]
  | (k, Obj phase) :: rest => (k, Obj {| files := (files phase ++ [member])%list |}) :: rest
  | (k, Comment c) :: rest => (k, Comment c) :: appendMember member newKey rest
  end.

(** Modelled from the spec: step 3 of [add] (4.5), missing from the
    source: create a BuildMembership referencing the new FileRecord and
    append it to the members of the phase of the kind's role. *)
Definition createMembership (role : Role) (f filePath : string) (p : Project) : Project :=
  let b := freshId p in
  let p1 := withBuildFiles (buildFilesOf p ++ [(b, Obj {| fileRef := f |})])%list p in
  withPhases role
    (appendMember {| value := b; comment := filePath |} (freshId p1) (phasesOf role p1))
    p1.

Fixpoint appendChild (groupKey : string) (child : Ref) (t : Table Group) : Table Group :=
  match t with
  | [] => []
  | (k, Obj group) :: rest =>
      if k =? groupKey
      then (k, Obj {| children := (children group ++ [child])%list |}) :: rest
      else (k, Obj group) :: appendChild groupKey child rest
  | (k, Comment c) :: rest => (k, Comment c) :: appendChild groupKey child rest
  end.

(** Modelled from the spec: step 4 of [add] (4.5), missing from the
    source: append the new FileRecord to the children of the group. *)
Definition attach (groupKey f filePath : string) (p : Project) : Project :=
  withGroups (appendChild groupKey {| value := f; comment := baseName filePath |} (PBXGroup p)) p.

(** Modelled from the spec: [addSourceFile] of the [xcode] package,
    missing from the source; steps 2 to 4 of [add] for kind source. *)
Definition addSourceFile (filePath groupKey : string) : M unit :=
  fun p =>
    let (f, p1) := createFileRecord filePath p in
    (attach groupKey f filePath (createMembership Sources f filePath p1), Returned tt).

(** Modelled from the spec: [addHeaderFile] of the [xcode] package,
    missing from the source; a header receives no BuildMembership. *)
Definition addHeaderFile (filePath groupKey : string) : M unit :=
  fun p =>
    let (f, p1) := createFileRecord filePath p in
    (attach groupKey f filePath p1, Returned tt).

(** Modelled from the spec: [addFramework] of the [xcode] package,
    missing from the source; the membership goes to the Frameworks phase. *)
Definition addFramework (filePath : string) : M unit :=
  fun p =>
    let (f, p1) := createFileRecord filePath p in
    (createMembership Frameworks f filePath p1, Returned tt).

(** Modelled from the spec: [addResourceFile] of the [xcode] package,
    missing from the source; the membership goes to the Resources phase. *)
Definition addResourceFile (filePath : string) : M unit :=
  fun p =>
    let (f, p1) := createFileRecord filePath p in
    (createMembership Resources f filePath p1, Returned tt).

(** Modelled from the spec: [pbxCreateGroup] of the [xcode] package,
    missing from the source; a new group with the given name (4.3),
    attached to the children of the root group [root]. *)
Definition pbxCreateGroup (root : string) (groupName : string) : M string :=
  fun p =>
    let g := freshId p in
    (withGroups
       (appendChild root {| value := g; comment := groupName |} (PBXGroup p)
        ++ [(g, Obj {| children := [] |}); ((g ++ "_comment")%string, Comment groupName)])%list
       p,
     Returned g).

(** The library with its [add] methods from the specification, and the
    rest from [base]. *)
Definition specLib (root : string) (base : XcodeLib) : XcodeLib :=
  Build_XcodeLib
    (@parseSync base) (@writeSync base)
    (pbxCreateGroup root)
    addSourceFile addHeaderFile addFramework addResourceFile
    (@removeSourceFile base) (@removeHeaderFile base)
    (@removeFramework base) (@removeResourceFile base).

End SpecModel.

(** ** Sample worlds and projects *)

(** A file system in which exactly the listed paths exist, with one
    project directory, and on which every write succeeds. *)
Definition sampleHost (existing : list string) : NodeHost :=
  {| existsSync := fun p => existsb (String.eqb p) existing;
     readdirSync := fun _ => Returned ["Podfile"; "App.xcodeproj"];
     joinPath := Js.join "/";
     writeFileSync := fun _ _ => Returned tt;
     otherTools := fun _ _ => Returned "ok" |}.

Definition typeError : Exn :=
  ErrorObject "Cannot read properties of null (reading 'path')".

(** A library that parses the project file to [parsed] and whose adding
    and removing methods all throw before changing anything: the case the
    fallbacks of lines 765-801 are written for. *)
Definition failingLib (parsed : Project) : XcodeLib :=
  {| parseSync := fun _ => Returned parsed;
     writeSync := fun _ => Returned "// !$*UTF8*$!";
     pbxCreateGroup := fun _ p => (p, Thrown typeError);
     addSourceFile := fun _ _ p => (p, Thrown typeError);
     addHeaderFile := fun _ _ p => (p, Thrown typeError);
     addFramework := fun _ p => (p, Thrown typeError);
     addResourceFile := fun _ p => (p, Thrown typeError);
     removeSourceFile := fun _ p => (p, Thrown typeError);
     removeHeaderFile := fun _ p => (p, Thrown typeError);
     removeFramework := fun _ p => (p, Thrown typeError);
     removeResourceFile := fun _ p => (p, Thrown typeError) |}.

Definition fileNamed (p : string) : Entry FileReference :=
  Obj {| path := Some p; name := None |}.

Definition refTo (id : string) : Ref := {| value := id; comment := id |}.

(** One source file that two build files reference, one per target. *)
Definition twoTargets : Project :=
  {| PBXFileReference := [("F1", fileNamed "A.swift"); ("F1_comment", Comment "A.swift")];
     PBXBuildFile :=
       Some
         [("B1", Obj {| fileRef := "F1" |}); ("B1_comment", Comment "A.swift in Sources");
          ("B2", Obj {| fileRef := "F1" |}); ("B2_comment", Comment "A.swift in Sources")];
     PBXGroup := [("G1", Obj {| children := [refTo "F1"] |}); ("G1_comment", Comment "App")];
     PBXSourcesBuildPhase :=
       [("S1", Obj {| files := [refTo "B1"] |}); ("S2", Obj {| files := [refTo "B2"] |})];
     PBXResourcesBuildPhase := [];
     PBXFrameworksBuildPhase := [] |}.

(** Two records with the same base name, the nested one first. *)
Definition twoFoo : Table FileReference :=
  [("F1", fileNamed "lib/Foo.swift"); ("F2", fileNamed "Foo.swift")].

(** A group holding only a C file, before a group holding a Swift file. *)
Definition cThenSwift : Project :=
  {| PBXFileReference := [("F1", fileNamed "util.c"); ("F2", fileNamed "App.swift")];
     PBXBuildFile := Some [];
     PBXGroup :=
       [("G1", Obj {| children := [refTo "F1"] |}); ("G2", Obj {| children := [refTo "F2"] |})];
     PBXSourcesBuildPhase := [("S1", Obj {| files := [] |})];
     PBXResourcesBuildPhase := [("R1", Obj {| files := [] |})];
     PBXFrameworksBuildPhase := [("W1", Obj {| files := [] |})] |}.


(** Twelve file references, none built. *)
Definition twelveFiles : Project :=
  {| PBXFileReference :=
       map (fun n => (("F" ++ n)%string, fileNamed (("f" ++ n ++ ".swift")%string)))
         ["01"; "02"; "03"; "04"; "05"; "06"; "07"; "08"; "09"; "10"; "11"; "12"];
     PBXBuildFile := Some [];
     PBXGroup := [];
     PBXSourcesBuildPhase := [];
     PBXResourcesBuildPhase := [];
     PBXFrameworksBuildPhase := [] |}.

Definition sampleArgs (op file : string) : Args :=
  {| projectPath := "/app"; operation := op; filePath := file; others := [] |}.

(** ** The upgrade diff: headers, file list and file section (lines 223-267) *)

(** A character the dot of a regular expression does not match: line feed
    or carriage return. *)
Definition isLineTerminator (a : ascii) : bool :=
  Ascii.eqb a (ascii_of_nat 10) || Ascii.eqb a (ascii_of_nat 13).

(** What must follow the first group of the header expression: a space,
    [b], a slash, and at least one character for the second group. *)
Definition closesHeader (s : string) : bool :=
  Js.startsWith s " b/"
  && match Js.substring 3 s with
     | String c _ => negb (isLineTerminator c)
     | EmptyString => false
     end.

(** The first group, which is lazy: the shortest run of one or more
    characters after which the rest of the expression matches. *)
Fixpoint lazyGroup (s : string) : option string :=
  match s with
  | EmptyString => None
  | String a s' =>
      if isLineTerminator a then None
      else if closesHeader s' then Some (String a EmptyString)
      else option_map (String a) (lazyGroup s')
  end.

(** The header expression tried at the start of [s]. *)
Definition matchHere (s : string) : option string :=
  if Js.startsWith s "diff --git a/" then lazyGroup (Js.substring 13 s) else None.

(** [line.match(...)] with the header expression of lines 229 and 249:
    element 1 of the leftmost match, [None] when there is no match. *)
Fixpoint headerMatch (line : string) : option string :=
  match matchHere line with
  | Some p => Some p
  | None =>
      match line with
      | EmptyString => None
      | String _ rest => headerMatch rest
      end
  end.

(** [line.startsWith("diff --git")] *)
Definition isGitHeader (line : string) : bool := Js.startsWith line "diff --git".

(** [diffContent.split] on the line feed. *)
Definition linesOf (diffContent : string) : list string :=
  Js.split (ascii_of_nat 10) diffContent.

(** A [Set] of strings, in insertion order, and [new Set(files)]. *)
Definition setAdd (s : list string) (x : string) : list string :=
  if existsb (String.eqb x) s then s else (s ++ [x])%list.

Definition setOf (l : list string) : list string := fold_left setAdd l [].

(** The loop of lines 227-234: the paths pushed, in order. *)
Fixpoint pushedFiles (lines : list string) : list string :=
  match lines with
  | [] => []
  | line :: rest =>
      if isGitHeader line then
        match headerMatch line with
        | Some p => p :: pushedFiles rest
        | None => pushedFiles rest
        end
      else pushedFiles rest
  end.

Definition parseFilesFromDiff (diffContent : string) : list string :=
  setOf (pushedFiles (linesOf diffContent)).

(** The test of lines 248-250: a header line of [fileName]. *)
Definition isHeaderOf (fileName line : string) : bool :=
  isGitHeader line
  && match headerMatch line with
     | Some p => p =? fileName
     | None => false
     end.

(** The loop of lines 244-264, from the state [inFile], [fileDiff]. *)
Fixpoint extractLoop (fileName : string) (lines : list string)
  (inFile : bool) (fileDiff : list string) : list string :=
  match lines with
  | [] => fileDiff
  | line :: rest =>
      if isHeaderOf fileName line then extractLoop fileName rest true [line]
      else if inFile then
        if isGitHeader line then fileDiff
        else extractLoop fileName rest true (fileDiff ++ [line])%list
      else extractLoop fileName rest false fileDiff
  end.

Definition extractFileDiff (diffContent fileName : string) : string :=
  Js.join newline (extractLoop fileName (linesOf diffContent) false []).

(** ** The cache of diffs (lines 20, 202-221) *)

(** The [Map] from cache keys to diffs. *)
Definition Cache : Type := list (string * string).

(** [diffCache.get(key)], [None] when [diffCache.has(key)] is false. *)
Fixpoint cacheGet (cache : Cache) (key : string) : option string :=
  match cache with
  | [] => None
  | (k, v) :: rest => if k =? key then Some v else cacheGet rest key
  end.

(** [diffCache.set(key, value)] *)
Definition cacheSet (key value : string) (cache : Cache) : Cache :=
  (key, value) :: filter (fun kv => negb (fst kv =? key)) cache.

Definition diffUrl (cacheKey : string) : string :=
  "https://raw.githubusercontent.com/react-native-community/rn-diff-purge/diffs/diffs/"
  ++ cacheKey ++ ".diff".

(** [fetchDiffWithCache]; [fetchWithTimeout] is the network, which answers
    with the text of the response or throws. *)
Definition fetchDiffWithCache (fetchWithTimeout : string -> Outcome string)
  (fromVersion toVersion : string) (cache : Cache) : Cache * Outcome string :=
  let cacheKey := fromVersion ++ ".." ++ toVersion in
  match cacheGet cache cacheKey with
  | Some diffContent => (cache, Returned diffContent)
  | None =>
      match fetchWithTimeout (diffUrl cacheKey) with
      | Returned diffContent => (cacheSet cacheKey diffContent cache, Returned diffContent)
      | Thrown error => (cache, Thrown error)
      end
  end.

(** Case ["get_file_specific_diff"] (lines 438-479): the cache after the
    call and the text of the response. *)
Definition get_file_specific_diff (fetchWithTimeout : string -> Outcome string)
  (fileName fromVersion toVersion : string) (cache : Cache) : Cache * string :=
  match fetchDiffWithCache fetchWithTimeout fromVersion toVersion cache with
  | (cache', Returned diffContent) =>
      let fileDiff := extractFileDiff diffContent fileName in
      if Js.truthy fileDiff
      then (cache', "Diff for " ++ fileName ++ ":" ++ newline ++ newline ++ fileDiff)
      else (cache', "No changes found for file: " ++ fileName)
  | (cache', Thrown error) => (cache', "Error fetching file diff: " ++ messageOf error)
  end.

(** ** Case ["analyze_file_type"] (lines 481-549) *)

Definition scriptFiles : list string := ["gradlew"; "gradlew.bat"].

Definition binaryExtensions : list string :=
  ["jar"; "png"; "jpg"; "jpeg"; "gif"; "ico"; "ttf"; "otf"; "so"; "a"; "dylib"].

(** The pairs [from], [to]. *)
Definition complexMigrations : list (string * string) :=
  [("AppDelegate.mm", "AppDelegate.swift");
   ("AppDelegate.m", "AppDelegate.swift");
   ("MainActivity.java", "MainActivity.kt")].

(** The arrow of the migration text (three bytes of UTF-8). *)
Definition arrow : string :=
  String (ascii_of_nat 226) (String (ascii_of_nat 134) (String (ascii_of_nat 146) EmptyString)).

Definition concernsMigration (fileName : string) (migration : string * string) : bool :=
  Js.includes fileName (fst migration) || Js.includes fileName (snd migration).

(** The file type and the instructions after the two decisions of lines
    507-531. *)
Definition analyzeFileType (fileName : string) : string * string :=
  let extension := Js.toLowerCase (Js.pop (Js.split Js.dot fileName)) in
  let baseName := Js.toLowerCase (Js.pop (Js.split Js.slash fileName)) in
  let byExtension :=
    if Js.truthy extension && existsb (String.eqb extension) binaryExtensions then
      ("binary_manual",
       "Binary file (" ++ extension
       ++ "): User must manually download/replace from React Native template. Provide download instructions to user.")
    else if existsb (String.eqb baseName) scriptFiles then
      ("patchable",
       "Script file: Apply diff normally. These are text files that can be patched despite being executables.")
    else ("patchable", "This file can be patched normally with diff.") in
  match find (concernsMigration fileName) complexMigrations with
  | Some migration =>
      ("complex_migration",
       "Complex migration detected (" ++ fst migration ++ " " ++ arrow ++ " " ++ snd migration
       ++ "). Parse existing file for custom logic (Firebase, Google Maps, etc.) and migrate ALL customizations. DO NOT skip this migration.")
  | None => byExtension
  end.

(** The text of the response (lines 537-545). *)
Definition analyze_file_type (fileName : string) : string :=
  let (fileType, instructions) := analyzeFileType fileName in
  "File Analysis: " ++ fileName ++ newline
  ++ "              " ++ newline
  ++ "File Type: " ++ fileType ++ newline
  ++ "Instructions: " ++ instructions ++ newline ++ newline
  ++ "File Categories:" ++ newline
  ++ "- patchable: Normal diff patching (includes script files like gradlew)" ++ newline
  ++ "- binary_manual: User must download manually (JAR, images, native libs)" ++ newline
  ++ "- complex_migration: Requires custom logic migration".

(** ** Case ["get_current_rn_version"] (lines 344-387) *)

(** What the case reads of the parsed [package.json]: the entries
    [react-native] of [dependencies] and of [devDependencies]. *)
Record PackageJson : Type := {
  dependency : option string;
  devDependency : option string
}.

Definition isRangeMark (a : ascii) : bool :=
  Ascii.eqb a "^"%char || Ascii.eqb a "~"%char.

Definition noRangeMark (a : ascii) : bool := negb (isRangeMark a).

(** [rnVersion.replace] of the first caret or tilde by nothing. *)
Fixpoint cleanVersion (rnVersion : string) : string :=
  match rnVersion with
  | EmptyString => EmptyString
  | String a rest => if isRangeMark a then rest else String a (cleanVersion rest)
  end.

(** [x || y] on strings that may be undefined. *)
Definition firstTruthy (x y : option string) : option string :=
  match x with
  | Some s => if Js.truthy s then Some s else
      match y with
      | Some t => if Js.truthy t then Some t else None
      | None => None
      end
  | None =>
      match y with
      | Some t => if Js.truthy t then Some t else None
      | None => None
      end
  end.

Section Version.

Context {host : NodeHost}.

(** [JSON.parse(readFileSync(path, "utf-8"))], which may throw. *)
Variable readPackageJson : string -> Outcome PackageJson.

Definition get_current_rn_version (args : Args) : Outcome string :=
  let packageJsonPath := joinPath [projectPath args; "package.json"] in
  if negb (existsSync packageJsonPath) then
    Returned ("Error: package.json not found at " ++ packageJsonPath)
  else
    match readPackageJson packageJsonPath with
    | Thrown error => Thrown error
    | Returned packageJson =>
        match firstTruthy (dependency packageJson) (devDependency packageJson) with
        | None => Returned "Error: react-native not found in dependencies"
        | Some rnVersion =>
            Returned ("Current React Native version: " ++ cleanVersion rnVersion)
        end
    end.

End Version.

(** The names a complex migration is recognised by. *)
Definition migrationNames : list string :=
  ["AppDelegate.mm"; "AppDelegate.swift"; "AppDelegate.m"; "MainActivity.java";
   "MainActivity.kt"].

(** A character other than [c]. *)
Definition isNot (c a : ascii) : bool := negb (Ascii.eqb a c).

(** A line that does not start a file section. *)
Definition notGitHeader (line : string) : Prop := isGitHeader line = false.

(** A character that is neither a line break nor a space. *)
Definition pathChar (a : ascii) : bool :=
  negb (isLineTerminator a) && negb (Ascii.eqb a " "%char).

(** Every character of [s] passes [f]. *)
Fixpoint stringForall (f : ascii -> bool) (s : string) : bool :=
  match s with
  | EmptyString => true
  | String a s' => f a && stringForall f s'
  end.

(** * Properties *)

(** ** The classifier *)

Lemma classify_cases (ext : string) :
  classify ext = Source \/ classify ext = Header
  \/ classify ext = FrameworkOrLibrary \/ classify ext = Resource.
Proof.
  destruct (classify ext); auto.
Qed.

(** C5. The classifier is total on extensions: swift, m, mm, cpp and c give
    source; h and hpp give header; framework, a and dylib give
    framework-or-library; every other extension gives resource; and each
    extension has exactly one kind. *)
Theorem classify_total_mapping :
  (forall ext, In ext ["swift"; "m"; "mm"; "cpp"; "c"] -> classify ext = Source)
  /\ (forall ext, In ext ["h"; "hpp"] -> classify ext = Header)
  /\ (forall ext, In ext ["framework"; "a"; "dylib"] -> classify ext = FrameworkOrLibrary)
  /\ (forall ext,
        ~ In ext ["swift"; "m"; "mm"; "cpp"; "c"; "h"; "hpp"; "framework"; "a"; "dylib"] ->
        classify ext = Resource)
  /\ (forall ext, exists k, classify ext = k /\ forall k', classify ext = k' -> k' = k).
Proof.
  repeat split.
  - intros ext H; simpl in H.
    repeat (destruct H as [<- | H]; [reflexivity |]); contradiction.
  - intros ext H; simpl in H.
    repeat (destruct H as [<- | H]; [reflexivity |]); contradiction.
  - intros ext H; simpl in H.
    repeat (destruct H as [<- | H]; [reflexivity |]); contradiction.
  - intros ext H. unfold classify.
    assert (E : forall s, In s ["swift"; "m"; "mm"; "cpp"; "c"; "h"; "hpp";
                                "framework"; "a"; "dylib"] -> (ext =? s) = false).
    { intros s Hs. apply String.eqb_neq. intros ->. exact (H Hs). }
    rewrite !E by (simpl; tauto). reflexivity.
  - intros ext. exists (classify ext). split; [reflexivity | congruence].
Qed.

(** ** Tables: what a loop visits *)

Section Tables.

Variable A : Type.

Lemma records_In (t : Table A) (k : string) (a : A) :
  In (k, a) (records t) -> In (k, Obj a) t /\ isCommentKey k = false.
Proof.
  induction t as [| [k0 [a0 | c]] t IH]; simpl; intros H.
  - contradiction.
  - destruct (isCommentKey k0) eqn:E.
    + destruct (IH H); auto.
    + destruct H as [H | H].
      * inversion H; subst; auto.
      * destruct (IH H); auto.
  - destruct (IH H); auto.
Qed.




Lemma find_orb_none (f g : A -> bool) (l : list A) :
  find (fun x => f x || g x) l = None <-> find f l = None /\ find g l = None.
Proof.
  induction l as [| x l IH]; simpl; [tauto |].
  destruct (f x), (g x); simpl; try (split; [discriminate | intros [? ?]; discriminate]).
  exact IH.
Qed.

Lemma option_map_none (B : Type) (h : A -> B) (o : option A) :
  option_map h o = None <-> o = None.
Proof. destruct o; simpl; split; congruence. Qed.

End Tables.

(** ** The path matcher *)

Lemma matchesPath_passes (normalizedPath refPath : string) :
  matchesPath normalizedPath refPath
  = pass1 normalizedPath refPath || pass2 normalizedPath refPath
    || pass3 normalizedPath refPath || pass4 normalizedPath refPath.
Proof.
  unfold matchesPath, pass1, pass2, pass3, pass4.
  now rewrite <- !orb_assoc.
Qed.

Lemma findFileRef_find (normalizedPath : string) (fileRefs : Table FileReference) :
  findFileRef normalizedPath fileRefs
  = option_map fst (find (recordPasses (matchesPath normalizedPath)) (records fileRefs)).
Proof.
  induction fileRefs as [| [uuid [refObj | c]] rest IH]; simpl.
  - reflexivity.
  - destruct (isCommentKey uuid); [exact IH |]. simpl.
    unfold recordPasses at 1, matchesRecord. simpl.
    destruct (refPathOf refObj) as [refPath |]; [| exact IH].
    destruct (matchesPath normalizedPath refPath); [reflexivity | exact IH].
  - destruct (isCommentKey uuid); exact IH.
Qed.

Lemma normalizePath_strips (rest : string) :
  normalizePath ("ios/" ++ rest) = rest.
Proof.
  unfold normalizePath. simpl. now destruct rest.
Qed.

Lemma recordPasses_ext (f g : string -> bool) (l : list (string * FileReference)) :
  (forall r, f r = g r) -> find (recordPasses f) l = find (recordPasses g) l.
Proof.
  intros E. induction l as [| kv l IH]; simpl; [reflexivity |].
  unfold recordPasses at 1 3. destruct (refPathOf (snd kv)); [rewrite E |]; rewrite IH; reflexivity.
Qed.

Lemma firstInPass_orb_none (f g : string -> bool) (fileRefs : Table FileReference) :
  firstInPass (fun r => f r || g r) fileRefs = None
  <-> firstInPass f fileRefs = None /\ firstInPass g fileRefs = None.
Proof.
  unfold firstInPass. rewrite !option_map_none.
  rewrite <- find_orb_none.
  assert (E : forall kv : string * FileReference,
             recordPasses (fun r => f r || g r) kv
             = recordPasses f kv || recordPasses g kv).
  { intros kv. unfold recordPasses. destruct (refPathOf (snd kv)); reflexivity. }
  induction (records fileRefs) as [| kv l IH]; simpl.
  - tauto.
  - rewrite E. destruct (recordPasses f kv || recordPasses g kv).
    + tauto.
    + exact IH.
Qed.

Lemma orElse_none (A : Type) (x y : option A) :
  orElse x y = None <-> x = None /\ y = None.
Proof.
  destruct x; simpl.
  - split; [discriminate | intros [H _]; discriminate].
  - tauto.
Qed.

Lemma findFileRef_firstInPass (normalizedPath : string) (fileRefs : Table FileReference) :
  findFileRef normalizedPath fileRefs
  = firstInPass
      (fun refPath =>
         pass1 normalizedPath refPath || pass2 normalizedPath refPath
         || pass3 normalizedPath refPath || pass4 normalizedPath refPath)
      fileRefs.
Proof.
  rewrite findFileRef_find. unfold firstInPass. f_equal.
  apply recordPasses_ext, matchesPath_passes.
Qed.

(** The source finds nothing exactly when the four passes find nothing. *)
Lemma findFileRef_none_iff (normalizedPath : string) (fileRefs : Table FileReference) :
  findFileRef normalizedPath fileRefs = None
  <-> fourPassMatcher normalizedPath fileRefs = None.
Proof.
  rewrite findFileRef_firstInPass. unfold fourPassMatcher. rewrite !orElse_none.
  split.
  - intros H.
    apply firstInPass_orb_none in H as [H H4].
    apply firstInPass_orb_none in H as [H H3].
    apply firstInPass_orb_none in H as [H1 H2].
    auto.
  - intros (H1 & H2 & H3 & H4).
    apply firstInPass_orb_none; split; [| exact H4].
    apply firstInPass_orb_none; split; [| exact H3].
    apply firstInPass_orb_none; split; assumption.
Qed.

(** C2 (as amended). The path given to [remove] loses one leading [ios/];
    the search then makes a single pass over the file records in table
    order and takes the first record that passes any of the four tests
    (equal to the path, equal to its base name, ending in slash and the
    path, ending in slash and the base name or being the end of the path
    after a slash).  It finds a record exactly when the four passes of
    the specification would find one. *)
Theorem findFileRef_single_pass :
  forall (filePath : string) (fileRefs : Table FileReference),
    let normalizedPath := normalizePath filePath in
    (forall rest, filePath = "ios/" ++ rest -> normalizedPath = rest)
    /\ (Js.startsWith filePath "ios/" = false -> normalizedPath = filePath)
    /\ findFileRef normalizedPath fileRefs
       = firstInPass
           (fun refPath =>
              pass1 normalizedPath refPath || pass2 normalizedPath refPath
              || pass3 normalizedPath refPath || pass4 normalizedPath refPath)
           fileRefs
    /\ (findFileRef normalizedPath fileRefs = None
        <-> fourPassMatcher normalizedPath fileRefs = None).
Proof.
  intros filePath fileRefs normalizedPath.
  split; [| split; [| split]].
  - intros rest ->. apply normalizePath_strips.
  - intros H. unfold normalizedPath, normalizePath. now rewrite H.
  - apply findFileRef_firstInPass.
  - apply findFileRef_none_iff.
Qed.

(** C2, as stated, fails: with the nested record first, the source takes
    it for the path [Foo.swift] although the second record equals the
    path, which the first pass of the specification would take. *)
Lemma findFileRef_not_four_passes :
  findFileRef (normalizePath "Foo.swift") twoFoo = Some "F1"
  /\ fourPassMatcher (normalizePath "Foo.swift") twoFoo = Some "F2".
Proof.
  split; vm_compute; reflexivity.
Qed.

(** ** The manual removal *)





Lemma phasesOf_manualRemoval (role : Role) (ref : string) (uuid : option string)
  (p : Project) :
  phasesOf role (manualRemoval ref uuid p) = filterPhases uuid (phasesOf role p).
Proof. destruct role; reflexivity. Qed.

Section Removal.

Context {host : NodeHost} {lib : XcodeLib}.

(** The library's exceptions never leave [builtinRemoval]: a call that
    throws only makes the result [false]. *)
Lemma builtinRemoval_returns (normalizedPath : string) (p : Project) :
  exists q removed, builtinRemoval normalizedPath p = (q, Returned removed).
Proof.
  unfold builtinRemoval, tryCatch, bind, ret.
  destruct (classify (extensionOf normalizedPath)).
  - destruct (removeSourceFile normalizedPath p) as [q [[] | e]]; [eauto |].
    destruct (removeSourceFile (baseName normalizedPath) q) as [q' [[] | e']]; eauto.
  - destruct (removeHeaderFile normalizedPath p) as [q [[] | e]]; [eauto |].
    destruct (removeHeaderFile (baseName normalizedPath) q) as [q' [[] | e']]; eauto.
  - destruct (removeFramework normalizedPath p) as [q [[] | e]]; eauto.
  - destruct (removeResourceFile normalizedPath p) as [q [[] | e]]; eauto.
Qed.

Lemma builtinRemoval_throws (normalizedPath : string) (p q : Project) :
  removalsThrow normalizedPath p q ->
  builtinRemoval normalizedPath p = (q, Returned false).
Proof.
  unfold removalsThrow, builtinRemoval, tryCatch, bind, ret.
  destruct (classify (extensionOf normalizedPath)).
  - intros (q1 & e1 & e2 & -> & ->). reflexivity.
  - intros (q1 & e1 & e2 & -> & ->). reflexivity.
  - intros (e & ->). reflexivity.
  - intros (e & ->). reflexivity.
Qed.

Lemma syncRemove_found (filePath ref : string) (buildFiles : Table BuildFile)
  (p q : Project) (removed : bool) :
  findFileRef (normalizePath filePath) (PBXFileReference p) = Some ref ->
  Js.truthy ref = true ->
  PBXBuildFile p = Some buildFiles ->
  builtinRemoval (normalizePath filePath) p = (q, Returned removed) ->
  syncRemove filePath p
  = (if removed then q
     else manualRemoval ref (findBuildFile ref buildFiles) q,
     Returned ("Removed file: " ++ normalizePath filePath)).
Proof.
  intros Hfind Htruthy Hsection Hbuiltin.
  unfold syncRemove. rewrite Hfind, Htruthy, Hsection.
  unfold tryCatch, bind. rewrite Hbuiltin.
  destruct removed; reflexivity.
Qed.


Lemma syncRemove_not_found (filePath : string) (p : Project) :
  findFileRef (normalizePath filePath) (PBXFileReference p) = None ->
  syncRemove filePath p
  = (p, Returned (notFoundResult (normalizePath filePath)
                    (foundFiles (PBXFileReference p)))).
Proof.
  intros Hfind. unfold syncRemove. now rewrite Hfind.
Qed.

End Removal.

(** ** Responses that come before any change *)

Section EarlyResponses.

Context {host : NodeHost} {lib : XcodeLib}.

(** An operation that responds at once, or throws, writes nothing. *)
Lemma syncProject_respond (pbxprojPath iosPath operation filePath text : string)
  (p q : Project) :
  parseSync pbxprojPath = Returned p ->
  syncOperation iosPath operation filePath p = (q, Returned (Respond text)) ->
  syncProject pbxprojPath iosPath operation filePath = (Returned text, []).
Proof.
  intros Hparse Hop. unfold syncProject. now rewrite Hparse, Hop.
Qed.

Lemma syncProject_no_write (pbxprojPath iosPath operation filePath : string) :
  (forall p, exists q text,
      syncOperation iosPath operation filePath p = (q, Returned (Respond text))) ->
  snd (syncProject pbxprojPath iosPath operation filePath) = [].
Proof.
  intros Hop. unfold syncProject.
  destruct (parseSync pbxprojPath) as [p | e]; [| reflexivity].
  destruct (Hop p) as (q & text & ->). reflexivity.
Qed.

Lemma sync_xcode_project_no_write (args : Args) :
  (forall p, exists q text,
      syncOperation (joinPath [projectPath args; "ios"]) (operation args)
        (filePath args) p
      = (q, Returned (Respond text))) ->
  snd (sync_xcode_project args) = [].
Proof.
  intros Hop. unfold sync_xcode_project.
  set (iosPath := joinPath [projectPath args; "ios"]) in *.
  destruct (existsSync iosPath); simpl; [| reflexivity].
  destruct (readdirSync iosPath) as [names | e]; [| reflexivity].
  destruct (find _ names) as [xcodeProj |]; [| reflexivity].
  destruct (existsSync (joinPath [iosPath; xcodeProj; "project.pbxproj"]));
    simpl; [| reflexivity].
  apply syncProject_no_write. exact Hop.
Qed.

Lemma syncOperation_unknown (iosPath operation filePath : string) (p : Project) :
  operation <> "add" -> operation <> "remove" ->
  syncOperation iosPath operation filePath p
  = (p, Returned (Respond (unknownOperationText operation))).
Proof.
  intros Hadd Hremove. unfold syncOperation.
  apply String.eqb_neq in Hadd, Hremove. now rewrite Hadd, Hremove.
Qed.

Lemma syncAdd_missing (iosPath filePath : string) (p : Project) :
  existsSync (joinPath [iosPath; filePath]) = false ->
  syncAdd iosPath filePath p
  = (p, Returned (Respond ("Error: File does not exist: "
                           ++ joinPath [iosPath; filePath]))).
Proof.
  intros Hmissing. unfold syncAdd. now rewrite Hmissing.
Qed.

Lemma handleToolCall_sync_writes (args : Args) :
  snd (handleToolCall "sync_xcode_project" (Some args)) = snd (sync_xcode_project args).
Proof.
  unfold handleToolCall, toolSwitch. simpl.
  destruct (sync_xcode_project args) as [[text | e] writes]; reflexivity.
Qed.

Lemma sync_xcode_project_located (args : Args) (pbxprojPath : string) :
  Located args pbxprojPath ->
  sync_xcode_project args
  = syncProject pbxprojPath (joinPath [projectPath args; "ios"])
      (operation args) (filePath args).
Proof.
  intros (Hios & names & xcodeProj & Hdir & Hfind & -> & Hpbx).
  unfold sync_xcode_project. rewrite Hios, Hdir, Hfind, Hpbx. reflexivity.
Qed.

Lemma handleToolCall_sync_returned (args : Args) (text : string) (writes : list Write) :
  sync_xcode_project args = (Returned text, writes) ->
  handleToolCall "sync_xcode_project" (Some args) = (Returned text, writes).
Proof.
  intros H. unfold handleToolCall, toolSwitch. simpl. now rewrite H.
Qed.

End EarlyResponses.

(** ** The cascade of a removal *)





(** C9. For an operation that is neither [add] nor [remove] the branch
    leaves the parsed project as it is and responds with the
    unknown-operation error; once the project file is located and parsed
    that error is the response of the tool, and in every case nothing is
    written. *)
Theorem unknown_operation_no_mutation :
  forall (host : NodeHost) (lib : XcodeLib) (args : Args),
    operation args <> "add" ->
    operation args <> "remove" ->
    let text := unknownOperationText (operation args) in
    (forall iosPath p,
        syncOperation iosPath (operation args) (filePath args) p
        = (p, Returned (Respond text)))
    /\ (forall pbxprojPath p,
           Located args pbxprojPath ->
           parseSync pbxprojPath = Returned p ->
           handleToolCall "sync_xcode_project" (Some args) = (Returned text, []))
    /\ snd (handleToolCall "sync_xcode_project" (Some args)) = [].
Proof.
  intros host lib args Hadd Hremove text.
  assert (Hop : forall iosPath p,
             syncOperation iosPath (operation args) (filePath args) p
             = (p, Returned (Respond text))).
  { intros iosPath p. now apply syncOperation_unknown. }
  split; [exact Hop |]. split.
  - intros pbxprojPath p Hlocated Hparse.
    apply handleToolCall_sync_returned.
    rewrite (sync_xcode_project_located Hlocated).
    eapply syncProject_respond; [exact Hparse | apply Hop].
  - rewrite handleToolCall_sync_writes.
    apply sync_xcode_project_no_write. intros p. exists p, text. apply Hop.
Qed.

(** Witness for C9: the operation [rename] on the sample project. *)
Lemma unknown_operation_no_mutation_witness :
  @handleToolCall
    (sampleHost ["/app/ios"; "/app/ios/App.xcodeproj/project.pbxproj"])
    (failingLib twoTargets) "sync_xcode_project" (Some (sampleArgs "rename" "A.swift"))
  = (Returned "Error: Unknown operation 'rename'. Use 'add' or 'remove'.", []).
Proof.
  pose (host := sampleHost ["/app/ios"; "/app/ios/App.xcodeproj/project.pbxproj"]).
  assert (Hadd : operation (sampleArgs "rename" "A.swift") <> "add") by discriminate.
  assert (Hremove : operation (sampleArgs "rename" "A.swift") <> "remove") by discriminate.
  assert (Hlocated : @Located host (sampleArgs "rename" "A.swift")
                       "/app/ios/App.xcodeproj/project.pbxproj").
  { split; [reflexivity |].
    exists ["Podfile"; "App.xcodeproj"], "App.xcodeproj". repeat split; reflexivity. }
  destruct (@unknown_operation_no_mutation host (failingLib twoTargets)
              (sampleArgs "rename" "A.swift") Hadd Hremove)
    as (_ & Htool & _).
  exact (Htool _ twoTargets Hlocated eq_refl).
Defined.

(** C10. When the file to add does not exist under the [ios] directory,
    [add] responds with an error at once: the parsed project is left as it
    is, once the project file is located and parsed that error is the
    response of the tool, and nothing is written to the project file. *)
Theorem add_missing_file_no_mutation :
  forall (host : NodeHost) (lib : XcodeLib) (args : Args),
    operation args = "add" ->
    let iosPath := joinPath [projectPath args; "ios"] in
    let absoluteFilePath := joinPath [iosPath; filePath args] in
    existsSync absoluteFilePath = false ->
    let text := "Error: File does not exist: " ++ absoluteFilePath in
    (forall p, syncOperation iosPath "add" (filePath args) p = (p, Returned (Respond text)))
    /\ (forall pbxprojPath p,
           Located args pbxprojPath ->
           parseSync pbxprojPath = Returned p ->
           handleToolCall "sync_xcode_project" (Some args) = (Returned text, []))
    /\ snd (handleToolCall "sync_xcode_project" (Some args)) = [].
Proof.
  intros host lib args Hadd iosPath absoluteFilePath Hmissing text.
  assert (Hop : forall p,
             syncOperation iosPath "add" (filePath args) p = (p, Returned (Respond text))).
  { intros p. unfold syncOperation. simpl. now apply syncAdd_missing. }
  split; [exact Hop |]. split.
  - intros pbxprojPath p Hlocated Hparse.
    apply handleToolCall_sync_returned.
    rewrite (sync_xcode_project_located Hlocated), Hadd.
    eapply syncProject_respond; [exact Hparse | apply Hop].
  - rewrite handleToolCall_sync_writes.
    apply sync_xcode_project_no_write. rewrite Hadd.
    intros p. exists p, text. apply Hop.
Qed.

(** Witness for C10: [B.swift] is not on the sample disk. *)
Lemma add_missing_file_no_mutation_witness :
  @handleToolCall
    (sampleHost ["/app/ios"; "/app/ios/App.xcodeproj/project.pbxproj"])
    (failingLib twoTargets) "sync_xcode_project" (Some (sampleArgs "add" "B.swift"))
  = (Returned "Error: File does not exist: /app/ios/B.swift", []).
Proof.
  pose (host := sampleHost ["/app/ios"; "/app/ios/App.xcodeproj/project.pbxproj"]).
  assert (Hlocated : @Located host (sampleArgs "add" "B.swift")
                       "/app/ios/App.xcodeproj/project.pbxproj").
  { split; [reflexivity |].
    exists ["Podfile"; "App.xcodeproj"], "App.xcodeproj". repeat split; reflexivity. }
  destruct (@add_missing_file_no_mutation host (failingLib twoTargets)
              (sampleArgs "add" "B.swift") eq_refl eq_refl)
    as (_ & Htool & _).
  exact (Htool _ twoTargets Hlocated eq_refl).
Defined.

(** ** A path that matches nothing *)

Lemma foundFiles_In (c : string) (fileRefs : Table FileReference) :
  In c (foundFiles fileRefs) ->
  exists k refObj, In (k, refObj) (records fileRefs) /\ refPathOf refObj = Some c.
Proof.
  induction fileRefs as [| [uuid [refObj | text]] rest IH]; simpl.
  - contradiction.
  - destruct (isCommentKey uuid).
    + exact IH.
    + destruct (refPathOf refObj) as [refPath |] eqn:E.
      * intros [<- | H].
        -- exists uuid, refObj. split; [left; reflexivity | exact E].
        -- destruct (IH H) as (k & r & Hin & Hr). exists k, r. split; [right |]; assumption.
      * intros H. destruct (IH H) as (k & r & Hin & Hr). exists k, r. split; [right |]; assumption.
  - destruct (isCommentKey uuid); exact IH.
Qed.

Lemma firstn_incl (A : Type) (n : nat) (l : list A) (x : A) :
  In x (firstn n l) -> In x l.
Proof.
  intros H. rewrite <- (firstn_skipn n l). apply in_or_app. now left.
Qed.

Lemma split_at (A : Type) (l listed rest : list A) :
  l = (listed ++ rest)%list ->
  listed = firstn (length listed) l /\ rest = skipn (length listed) l.
Proof.
  intros ->. split.
  - rewrite firstn_app, Nat.sub_diag, firstn_all. simpl. now rewrite app_nil_r.
  - rewrite skipn_app, Nat.sub_diag, skipn_all. reflexivity.
Qed.

Lemma foundFiles_storedPaths (fileRefs : Table FileReference) :
  foundFiles fileRefs = storedPaths fileRefs.
Proof.
  unfold storedPaths.
  induction fileRefs as [| [uuid [refObj | text]] rest IH]; simpl.
  - reflexivity.
  - destruct (isCommentKey uuid); [exact IH |].
    simpl. destruct (refPathOf refObj); simpl; now rewrite IH.
  - destruct (isCommentKey uuid); exact IH.
Qed.

(** C3 (as amended). When the path matches no file record under the four
    passes, [remove] leaves the project as it was parsed and its result is
    the not-found text: the path asked for, then the first stored paths of
    the project in table order, at most ten of them, then three dots when
    the project has more than ten.  The tool nevertheless writes the
    project file, with the serialisation of that unchanged project, and
    delivers the text inside its response for an updated project. *)
Theorem remove_not_found_unchanged :
  forall (host : NodeHost) (lib : XcodeLib) (args : Args) (p : Project),
    operation args = "remove" ->
    fourPassMatcher (normalizePath (filePath args)) (PBXFileReference p) = None ->
    let candidates := storedPaths (PBXFileReference p) in
    exists listed rest,
      candidates = (listed ++ rest)%list
      /\ length listed = Nat.min 10 (length candidates)
      /\ (forall c, In c listed ->
                    exists k refObj,
                      In (k, refObj) (records (PBXFileReference p))
                      /\ refPathOf refObj = Some c)
      /\ let result :=
           "File not found in project: " ++ normalizePath (filePath args)
           ++ "\n\nFiles in project: " ++ Js.join ", " listed
           ++ (match rest with [] => "" | _ :: _ => "..." end) in
         syncRemove (filePath args) p = (p, Returned result)
         /\ forall pbxprojPath data,
              Located args pbxprojPath ->
              parseSync pbxprojPath = Returned p ->
              writeSync p = Returned data ->
              snd (handleToolCall "sync_xcode_project" (Some args))
              = [(pbxprojPath, data)]
              /\ (writeFileSync pbxprojPath data = Returned tt ->
                  fst (handleToolCall "sync_xcode_project" (Some args))
                  = Returned (updatedText result)).
Proof.
  intros host lib args p Hremove Hnone candidates.
  apply findFileRef_none_iff in Hnone.
  pose proof (syncRemove_not_found (filePath args) p Hnone) as Hrun.
  rewrite foundFiles_storedPaths in Hrun. fold candidates in Hrun.
  exists (firstn 10 candidates), (skipn 10 candidates).
  split; [symmetry; apply firstn_skipn |].
  split; [apply length_firstn |].
  split.
  { intros c Hc. apply foundFiles_In. rewrite foundFiles_storedPaths.
    eapply firstn_incl. exact Hc. }
  assert (Hdots : (if Nat.ltb 10 (length candidates) then "..." else "")
                  = match skipn 10 candidates with [] => "" | _ :: _ => "..." end).
  { destruct (Nat.ltb_spec 10 (length candidates)) as [Hlt | Hge].
    - destruct (skipn 10 candidates) eqn:E; [| reflexivity].
      pose proof (length_skipn 10 candidates) as Hlen. rewrite E in Hlen.
      simpl in Hlen. lia.
    - now rewrite skipn_all2. }
  intros result.
  assert (Hresult : notFoundResult (normalizePath (filePath args)) candidates = result).
  { unfold result, notFoundResult. now rewrite Hdots. }
  rewrite Hresult in Hrun.
  split; [exact Hrun |].
  intros pbxprojPath data Hlocated Hparse Hwrite.
  assert (E : sync_xcode_project args
              = match writeFileSync pbxprojPath data with
                | Thrown error => (Returned (syncErrorText error), [(pbxprojPath, data)])
                | Returned _ => (Returned (updatedText result), [(pbxprojPath, data)])
                end).
  { rewrite (sync_xcode_project_located Hlocated), Hremove.
    unfold syncProject, syncOperation. rewrite Hparse. simpl.
    unfold bind. rewrite Hrun. simpl. now rewrite Hwrite. }
  split.
  + rewrite handleToolCall_sync_writes, E.
    destruct (writeFileSync pbxprojPath data); reflexivity.
  + intros Hdisk. rewrite Hdisk in E.
    now rewrite (handleToolCall_sync_returned _ E).
Qed.

(** Witness for C3: a path that is not among the twelve files of
    [twelveFiles]; ten of them are listed. *)
Lemma remove_not_found_unchanged_witness :
  @syncRemove (failingLib twelveFiles) "ios/Z.swift" twelveFiles
  = (twelveFiles,
     Returned
       ("File not found in project: Z.swift\n\nFiles in project: "
        ++ "f01.swift, f02.swift, f03.swift, f04.swift, f05.swift, "
        ++ "f06.swift, f07.swift, f08.swift, f09.swift, f10.swift...")).
Proof.
  destruct (@remove_not_found_unchanged
              (sampleHost []) (failingLib twelveFiles)
              (sampleArgs "remove" "ios/Z.swift") twelveFiles eq_refl eq_refl)
    as (listed & rest & Hsplit & Hlen & _ & Hrun & _).
  assert (Hlisted : listed = firstn 10 (storedPaths (PBXFileReference twelveFiles))
                    /\ rest = skipn 10 (storedPaths (PBXFileReference twelveFiles))).
  { change 10 with (Nat.min 10 (length (storedPaths (PBXFileReference twelveFiles)))).
    rewrite <- Hlen. apply split_at. exact Hsplit. }
  destruct Hlisted as [-> ->]. exact Hrun.
Defined.

(** C3, as stated, fails: the removal that finds nothing is not free of
    effects, since the project file is written, and its answer is the
    text for an updated project. *)
Lemma remove_not_found_rewrites_file :
  @handleToolCall
    (sampleHost ["/app/ios"; "/app/ios/App.xcodeproj/project.pbxproj"])
    (failingLib twoTargets) "sync_xcode_project" (Some (sampleArgs "remove" "B.swift"))
  = (Returned
       (updatedText "File not found in project: B.swift\n\nFiles in project: A.swift"),
     [("/app/ios/App.xcodeproj/project.pbxproj", "// !$*UTF8*$!")]).
Proof.
  vm_compute. reflexivity.
Qed.

(** ** Exceptions of a tool call *)

Section Exceptions.

Context {host : NodeHost} {lib : XcodeLib}.

Lemma handleToolCall_with_args (name : string) (args : Args) :
  handleToolCall name (Some args)
  = match toolSwitch name args with
    | (Thrown error, writes) => (Returned ("Error: " ++ messageOf error), writes)
    | returned => returned
    end.
Proof. reflexivity. Qed.

End Exceptions.

(** C7 (as amended). A call without arguments throws [Missing arguments]
    to its caller.  A call with arguments always returns a response: an
    exception raised inside the switch, the unknown tool name included,
    comes back as the text [Error:] followed by its message.  An exception
    thrown by a removal method of the library is not reported: when every
    method tried throws, [remove] removes by hand and answers that the
    file was removed. *)
Theorem handleToolCall_catches :
  forall (host : NodeHost) (lib : XcodeLib) (name : string),
    handleToolCall name None = (Thrown (ErrorObject "Missing arguments"), [])
    /\ (forall args, exists text, fst (handleToolCall name (Some args)) = Returned text)
    /\ (forall args error writes,
           toolSwitch name args = (Thrown error, writes) ->
           handleToolCall name (Some args)
           = (Returned ("Error: " ++ messageOf error), writes))
    /\ (forall args,
           name <> "sync_xcode_project" ->
           ~ In name otherToolNames ->
           handleToolCall name (Some args)
           = (Returned ("Error: Unknown tool: " ++ name), []))
    /\ (forall filePath ref buildFiles p q,
           findFileRef (normalizePath filePath) (PBXFileReference p) = Some ref ->
           Js.truthy ref = true ->
           PBXBuildFile p = Some buildFiles ->
           removalsThrow (normalizePath filePath) p q ->
           syncRemove filePath p
           = (manualRemoval ref (findBuildFile ref buildFiles) q,
              Returned ("Removed file: " ++ normalizePath filePath))).
Proof.
  intros host lib name. split; [reflexivity |]. split; [| split; [| split]].
  - intros args. rewrite handleToolCall_with_args.
    destruct (toolSwitch name args) as [[text | error] writes]; simpl; eauto.
  - intros args error writes H. rewrite handleToolCall_with_args. now rewrite H.
  - intros args Hsync Hother. rewrite handleToolCall_with_args.
    unfold toolSwitch.
    apply String.eqb_neq in Hsync. rewrite Hsync.
    destruct (existsb (String.eqb name) otherToolNames) eqn:E; [| reflexivity].
    apply existsb_exists in E as (n & Hin & Heq).
    apply String.eqb_eq in Heq. subst n. contradiction.
  - intros filePath ref buildFiles p q Hfind Htruthy Hsection Hthrow.
    apply builtinRemoval_throws in Hthrow.
    erewrite syncRemove_found by eassumption. reflexivity.
Qed.

(** Witness for C7: every removal method of the sample library throws,
    and the removal of [A.swift] is reported as done. *)
Lemma handleToolCall_catches_witness :
  @syncRemove (failingLib twoTargets) "ios/A.swift" twoTargets
  = (manualRemoval "F1" (Some "B1") twoTargets, Returned "Removed file: A.swift").
Proof.
  destruct (@handleToolCall_catches (sampleHost []) (failingLib twoTargets)
              "sync_xcode_project") as (_ & _ & _ & _ & Hremoval).
  apply (Hremoval "ios/A.swift" "F1"
           [("B1", Obj {| fileRef := "F1" |}); ("B1_comment", Comment "A.swift in Sources");
            ("B2", Obj {| fileRef := "F1" |}); ("B2_comment", Comment "A.swift in Sources")]
           twoTargets twoTargets eq_refl eq_refl eq_refl).
  exists twoTargets, typeError, typeError. split; reflexivity.
Defined.

(** C7, as stated, fails: the call without arguments raises an exception
    instead of returning a failure value. *)
Lemma handleToolCall_missing_arguments_throws :
  @handleToolCall
    (sampleHost ["/app/ios"; "/app/ios/App.xcodeproj/project.pbxproj"])
    (failingLib twoTargets) "sync_xcode_project" None
  = (Thrown (ErrorObject "Missing arguments"), []).
Proof.
  unfold handleToolCall. reflexivity.
Qed.

(** ** The group search *)

Lemma substring_suffix (n : nat) (s : string) :
  exists pre, s = pre ++ Js.substring n s.
Proof.
  revert s. induction n as [| n IH]; intros s.
  - exists EmptyString. reflexivity.
  - destruct s as [| a s]; simpl.
    + exists EmptyString. reflexivity.
    + destruct (IH s) as (pre & Hpre). exists (String a pre). simpl. now rewrite <- Hpre.
Qed.

Lemma endsWith_suffix (s suf : string) :
  Js.endsWith s suf = true -> exists pre, s = pre ++ suf.
Proof.
  unfold Js.endsWith. intros H. apply andb_true_iff in H as [_ H].
  apply String.eqb_eq in H.
  destruct (substring_suffix (String.length s - String.length suf) s) as (pre & Hpre).
  exists pre. now rewrite H in Hpre.
Qed.

Lemma split_two (c : ascii) (pre rest : string) :
  exists h h' t, Js.split c (pre ++ String c rest) = h :: h' :: t.
Proof.
  induction pre as [| a pre IH]; simpl.
  - rewrite Ascii.eqb_refl.
    destruct rest as [| b rest]; simpl.
    + eauto.
    + destruct (Ascii.eqb b c); [eauto |].
      destruct (Js.split c rest); eauto.
  - destruct IH as (h & h' & t & ->).
    destruct (Ascii.eqb a c); eauto.
Qed.

Lemma split_not_nil (c : ascii) (s : string) : Js.split c s <> [].
Proof.
  destruct s as [| a s]; simpl; [discriminate |].
  destruct (Ascii.eqb a c); [discriminate |].
  destruct (Js.split c s); discriminate.
Qed.

Lemma pop_split_app (c : ascii) (pre rest : string) :
  Js.pop (Js.split c (pre ++ String c rest)) = Js.pop (Js.split c rest).
Proof.
  unfold Js.pop. induction pre as [| a pre IH]; simpl.
  - rewrite Ascii.eqb_refl.
    pose proof (split_not_nil c rest) as Hne.
    destruct (Js.split c rest); [contradiction | reflexivity].
  - destruct (split_two c pre rest) as (h & h' & t & E).
    rewrite E in IH |- *.
    destruct (Ascii.eqb a c); exact IH.
Qed.

(** A path that ends in a dot and an extension without dots has that
    extension. *)
Lemma extensionOf_endsWith (s ext : string) :
  Js.endsWith s (String Js.dot ext) = true ->
  extensionOf s = Js.toLowerCase (Js.pop (Js.split Js.dot ext)).
Proof.
  intros H. apply endsWith_suffix in H as (pre & ->).
  unfold extensionOf. now rewrite pop_split_app.
Qed.

Lemma isSourceChild_kind (project : Project) (child : Ref) :
  isSourceChild project child = true ->
  exists refObj,
    get (PBXFileReference project) (value child) = Some (Obj refObj)
    /\ kindIs Source (recordKind refObj) = true.
Proof.
  unfold isSourceChild.
  destruct (get (PBXFileReference project) (value child)) as [[refObj | c] |];
    try discriminate.
  destruct (path refObj) as [p |] eqn:Hpath; try discriminate.
  destruct (Js.truthy p) eqn:Htruthy; try discriminate.
  intros H. exists refObj. split; [reflexivity |].
  unfold recordKind, refPathOf. rewrite Hpath, Htruthy. simpl.
  apply orb_true_iff in H as [H | H]; [apply orb_true_iff in H as [H | H] |];
    apply extensionOf_endsWith in H; rewrite H; reflexivity.
Qed.

Lemma hasSourceFiles_holds (project : Project) (k : string) (group : Group) :
  hasSourceFiles project group = true -> holdsSourceRecord project (k, group) = true.
Proof.
  unfold hasSourceFiles, holdsSourceRecord. simpl. intros H.
  apply existsb_exists in H as (child & Hin & Hchild).
  apply existsb_exists. exists child. split; [exact Hin |].
  destruct (isSourceChild_kind project child Hchild) as (refObj & -> & Hkind).
  exact Hkind.
Qed.

Lemma findSourceGroup_find (project : Project) (groups : Table Group) :
  findSourceGroup project groups
  = option_map fst (find (groupQualifies project) (records groups)).
Proof.
  induction groups as [| [groupKey [group | c]] rest IH]; simpl.
  - reflexivity.
  - destruct (isCommentKey groupKey); [exact IH |]. simpl.
    unfold groupQualifies at 1. simpl.
    destruct (Nat.ltb 0 (length (children group)) && hasSourceFiles project group);
      [reflexivity | exact IH].
  - destruct (isCommentKey groupKey); exact IH.
Qed.

(** C4 (as amended). The search visits the groups in table order and takes
    the first one that has a child whose file reference has a path ending
    in [.swift], [.m] or [.mm]; such a group always holds a record of kind
    source.  Only source and header files use the result: they go to the
    group found, or, when none is found, to a group the library is asked
    to create under the name [Sources] or [Headers].  Frameworks,
    libraries and resources are handed to the library without a group. *)
Theorem findSourceGroup_first_swift_objc :
  forall (host : NodeHost) (lib : XcodeLib) (project : Project),
    let groupName := findSourceGroup project (PBXGroup project) in
    groupName = option_map fst (find (groupQualifies project) (records (PBXGroup project)))
    /\ (forall g, groupName = Some g ->
                  exists group,
                    In (g, group) (records (PBXGroup project))
                    /\ holdsSourceRecord project (g, group) = true)
    /\ (forall iosPath filePath,
           existsSync (joinPath [iosPath; filePath]) = true ->
           syncAdd iosPath filePath project
           = match classify (extensionOf filePath) with
             | Source =>
                 (inGroup groupName "Sources" (addSourceFile filePath) ;;;
                  ret (Proceed ("Added source file: " ++ filePath))) project
             | Header =>
                 (inGroup groupName "Headers" (addHeaderFile filePath) ;;;
                  ret (Proceed ("Added header file: " ++ filePath))) project
             | FrameworkOrLibrary =>
                 (addFramework filePath ;;;
                  ret (Proceed ("Added framework: " ++ filePath))) project
             | Resource =>
                 (addResourceFile filePath ;;;
                  ret (Proceed ("Added resource file: " ++ filePath))) project
             end)
    /\ (forall g fallback addTo,
           groupName = Some g -> Js.truthy g = true ->
           inGroup groupName fallback addTo = addTo g)
    /\ (forall fallback addTo,
           groupName = None ->
           inGroup groupName fallback addTo
           = (newGroupKey <- pbxCreateGroup fallback ;; addTo newGroupKey)).
Proof.
  intros host lib project groupName.
  assert (E : groupName
              = option_map fst (find (groupQualifies project) (records (PBXGroup project)))).
  { apply findSourceGroup_find. }
  split; [exact E |]. split; [| split; [| split]].
  - intros g Hg. rewrite E in Hg.
    destruct (find (groupQualifies project) (records (PBXGroup project)))
      as [[k group] |] eqn:Hfind; [| discriminate].
    simpl in Hg. inversion Hg; subst k.
    apply find_some in Hfind as [Hin Hq].
    exists group. split; [exact Hin |].
    unfold groupQualifies in Hq. apply andb_true_iff in Hq as [_ Hq].
    now apply hasSourceFiles_holds.
  - intros iosPath filePath Hexists. unfold syncAdd. rewrite Hexists. simpl.
    fold groupName. destruct (classify (extensionOf filePath)); reflexivity.
  - intros g fallback addTo -> Htruthy. unfold inGroup. now rewrite Htruthy.
  - intros fallback addTo ->. reflexivity.
Qed.

(** C4, as stated, fails: the first group holds a C file, a record of kind
    source, and the source passes over it for the group with the Swift
    file. *)
Lemma findSourceGroup_skips_c_group :
  findSourceGroup cThenSwift (PBXGroup cThenSwift) = Some "G2"
  /\ groupLocatorSpec cThenSwift = Some "G1".
Proof.
  split; vm_compute; reflexivity.
Qed.

(** ** Build membership of an added file *)

Lemma MembershipCreated_frame (role : Role) (filePath : string) (p p1 p' : Project) :
  PBXFileReference p1 = PBXFileReference p ->
  PBXBuildFile p1 = PBXBuildFile p ->
  (forall r, phasesOf r p1 = phasesOf r p) ->
  MembershipCreated role filePath p1 p' ->
  MembershipCreated role filePath p p'.
Proof.
  intros Hf Hb Hph (f & b & refObj & H1 & H2 & H3 & H4 & H5 & k & before & H6 & H7).
  assert (Hb' : buildFilesOf p1 = buildFilesOf p).
  { unfold buildFilesOf. now rewrite Hb. }
  exists f, b, refObj. rewrite Hf in H1. rewrite Hb' in H4. rewrite Hph in H7.
  repeat (split; [assumption |]). exists k, before. split; assumption.
Qed.

Lemma NoMembership_frame (p p1 p' : Project) :
  PBXBuildFile p1 = PBXBuildFile p ->
  (forall r, phasesOf r p1 = phasesOf r p) ->
  NoMembership p1 p' ->
  NoMembership p p'.
Proof.
  intros Hb Hph [H1 H2]. split; [congruence |].
  intros r. rewrite H2. apply Hph.
Qed.

Section AddContracts.

Context {host : NodeHost} {lib : XcodeLib}.

(** What the specification says of the library's methods. *)
Hypothesis addSourceFile_ok : forall filePath g p p',
    addSourceFile filePath g p = (p', Returned tt) ->
    MembershipCreated Sources filePath p p'.
Hypothesis addFramework_ok : forall filePath p p',
    addFramework filePath p = (p', Returned tt) ->
    MembershipCreated Frameworks filePath p p'.
Hypothesis addResourceFile_ok : forall filePath p p',
    addResourceFile filePath p = (p', Returned tt) ->
    MembershipCreated Resources filePath p p'.
Hypothesis addHeaderFile_ok : forall filePath g p p',
    addHeaderFile filePath g p = (p', Returned tt) ->
    NoMembership p p'.
Hypothesis pbxCreateGroup_ok : forall groupName p p' k,
    pbxCreateGroup groupName p = (p', Returned k) ->
    PBXFileReference p' = PBXFileReference p
    /\ PBXBuildFile p' = PBXBuildFile p
    /\ forall r, phasesOf r p' = phasesOf r p.

Lemma inGroup_inv (groupName : option string) (fallback : string)
  (addTo : string -> M unit) (p p' : Project) :
  inGroup groupName fallback addTo p = (p', Returned tt) ->
  (exists g, addTo g p = (p', Returned tt))
  \/ (exists p1 k, pbxCreateGroup fallback p = (p1, Returned k)
                   /\ addTo k p1 = (p', Returned tt)).
Proof.
  unfold inGroup, bind.
  assert (Hnew : match pbxCreateGroup fallback p with
                 | (q, Returned a) => addTo a q
                 | (q, Thrown e) => (q, Thrown e)
                 end = (p', Returned tt) ->
                 exists p1 k, pbxCreateGroup fallback p = (p1, Returned k)
                              /\ addTo k p1 = (p', Returned tt)).
  { destruct (pbxCreateGroup fallback p) as [p1 [k | e]]; [eauto | discriminate]. }
  destruct groupName as [g |]; [destruct (Js.truthy g) |]; eauto.
Qed.

Lemma bind_ret_inv (A : Type) (m : M unit) (a : A) (p p' : Project) (r : A) :
  (m ;;; ret a) p = (p', Returned r) -> m p = (p', Returned tt) /\ r = a.
Proof.
  unfold bind, ret. destruct (m p) as [q [[] | e]]; intros H; inversion H; auto.
Qed.

Lemma syncAdd_membership (iosPath filePath result : string) (p p' : Project) :
  syncAdd iosPath filePath p = (p', Returned (Proceed result)) ->
  match roleOf (classify (extensionOf filePath)) with
  | Some role => MembershipCreated role filePath p p'
  | None => NoMembership p p'
  end.
Proof.
  unfold syncAdd.
  destruct (negb (existsSync (joinPath [iosPath; filePath]))); [discriminate |].
  destruct (classify (extensionOf filePath)); simpl; intros H;
    apply bind_ret_inv in H as [H _].
  - apply inGroup_inv in H as [(g & H) | (p1 & k & Hg & H)].
    + eapply addSourceFile_ok; exact H.
    + destruct (pbxCreateGroup_ok _ _ Hg) as (Hf & Hb & Hph).
      eapply MembershipCreated_frame; eauto.
  - apply inGroup_inv in H as [(g & H) | (p1 & k & Hg & H)].
    + eapply addHeaderFile_ok; exact H.
    + destruct (pbxCreateGroup_ok _ _ Hg) as (Hf & Hb & Hph).
      eapply NoMembership_frame; eauto.
  - eapply addFramework_ok; exact H.
  - eapply addResourceFile_ok; exact H.
Qed.

End AddContracts.

(** ** The specification's library meets its contracts *)

Lemma length_zeros (n : nat) : String.length (SpecModel.zeros n) = n.
Proof. induction n; simpl; congruence. Qed.

Lemma freshId_fresh (p : Project) : ~ In (SpecModel.freshId p) (SpecModel.allKeys p).
Proof.
  intros Hin. unfold SpecModel.freshId in Hin.
  set (lengths := map String.length (SpecModel.allKeys p)) in *.
  assert (Hmax : Forall (fun k => k <= list_max lengths) lengths).
  { apply list_max_le. apply Nat.le_refl. }
  rewrite Forall_forall in Hmax.
  specialize (Hmax _ (in_map String.length _ _ Hin)).
  rewrite length_zeros in Hmax. lia.
Qed.

Lemma fresh_not_file_key (p : Project) :
  ~ In (SpecModel.freshId p) (keysOf (PBXFileReference p)).
Proof.
  intros H. apply (freshId_fresh p). unfold SpecModel.allKeys.
  apply in_or_app. now left.
Qed.

Lemma fresh_not_build_key (p : Project) :
  ~ In (SpecModel.freshId p) (keysOf (buildFilesOf p)).
Proof.
  intros H. apply (freshId_fresh p). unfold SpecModel.allKeys.
  apply in_or_app. right. apply in_or_app. now left.
Qed.

Lemma fresh_not_phase_key (role : Role) (p : Project) :
  ~ In (SpecModel.freshId p) (keysOf (phasesOf role p)).
Proof.
  intros H. apply (freshId_fresh p). unfold SpecModel.allKeys.
  do 3 (apply in_or_app; right).
  destruct role; simpl in H.
  - apply in_or_app. now left.
  - apply in_or_app. right. apply in_or_app. now left.
  - apply in_or_app. right. apply in_or_app. now right.
Qed.

Lemma appendMember_appends (member : Ref) (newKey : string) (t : Table BuildPhase) :
  ~ In newKey (keysOf t) ->
  exists phaseKey before,
    In (phaseKey, Obj {| files := (before ++ [member])%list |})
       (SpecModel.appendMember member newKey t)
    /\ (In (phaseKey, Obj {| files := before |}) t
        \/ (before = [] /\ ~ In phaseKey (keysOf t))).
Proof.
  induction t as [| [k [[fs] | c]] rest IH]; simpl; intros Hnew.
  - exists newKey, []. split; [left; reflexivity | right; auto].
  - exists k, fs. split; [left; reflexivity | left; left; reflexivity].
  - destruct IH as (phaseKey & before & Hin & Hold); [tauto |].
    exists phaseKey, before. split; [right; exact Hin |].
    destruct Hold as [Hold | [-> Habsent]]; [left; right; exact Hold |].
    destruct (String.eqb_spec k phaseKey) as [-> | Hneq].
    + (* the new phase carries the fresh key, which is not [k] *)
      exfalso.
      assert (Hkey : In phaseKey (keysOf (SpecModel.appendMember member newKey rest))).
      { apply in_map_iff. eexists. split; [| exact Hin]. reflexivity. }
      assert (Hkeys : forall x, In x (keysOf (SpecModel.appendMember member newKey rest)) ->
                                x = newKey \/ In x (keysOf rest)).
      { clear. induction rest as [| [k' [ph | c']] rest IH]; simpl; intros x Hx.
        - destruct Hx as [<- | []]. now left.
        - exact (or_intror Hx).
        - destruct Hx as [Hx | Hx]; [tauto |]. destruct (IH x Hx); tauto. }
      destruct (Hkeys _ Hkey) as [E | Hrest].
      * apply Hnew. simpl. left. exact E.
      * exact (Habsent Hrest).
    + right. split; [reflexivity |]. simpl. tauto.
Qed.

Lemma createMembership_spec (role : Role) (f filePath : string) (p : Project) :
  let p' := SpecModel.createMembership role f filePath p in
  PBXFileReference p' = PBXFileReference p
  /\ PBXGroup p' = PBXGroup p
  /\ In (SpecModel.freshId p, Obj {| fileRef := f |}) (buildFilesOf p')
  /\ exists phaseKey before,
       In (phaseKey,
           Obj {| files := (before ++ [{| value := SpecModel.freshId p;
                                          comment := filePath |}])%list |})
          (phasesOf role p')
       /\ (In (phaseKey, Obj {| files := before |}) (phasesOf role p)
           \/ (before = [] /\ ~ In phaseKey (keysOf (phasesOf role p)))).
Proof.
  intros p'. subst p'. unfold SpecModel.createMembership.
  set (b := SpecModel.freshId p).
  set (p1 := SpecModel.withBuildFiles _ p).
  assert (Hph : phasesOf role p1 = phasesOf role p) by (destruct role; reflexivity).
  repeat split.
  - simpl. apply in_or_app. right. left. reflexivity.
  - destruct (appendMember_appends {| value := b; comment := filePath |}
                (SpecModel.freshId p1) (phasesOf role p1)
                (fresh_not_phase_key role p1))
      as (phaseKey & before & Hin & Hold).
    exists phaseKey, before. rewrite Hph in Hold. split; [| exact Hold].
    destruct role; exact Hin.
Qed.

Lemma membership_after_record (role : Role) (filePath : string) (p : Project) :
  let (f, p1) := SpecModel.createFileRecord filePath p in
  MembershipCreated role filePath p (SpecModel.createMembership role f filePath p1).
Proof.
  unfold SpecModel.createFileRecord.
  set (f := SpecModel.freshId p).
  set (p1 := SpecModel.withFileReferences _ p).
  destruct (createMembership_spec role f filePath p1) as (Hf & _ & Hb & k & before & Hin & Hold).
  exists f, (SpecModel.freshId p1),
    {| path := Some filePath; name := Some (baseName filePath) |}.
  split; [apply fresh_not_file_key |].
  split; [rewrite Hf; simpl; apply in_or_app; right; left; reflexivity |].
  split; [reflexivity |].
  split; [exact (fresh_not_build_key p1) |].
  split; [exact Hb |].
  exists k, before. split; [exact Hin |].
  replace (phasesOf role p) with (phasesOf role p1) by (destruct role; reflexivity).
  exact Hold.
Qed.

Lemma MembershipCreated_attach (role : Role) (filePath g f : string) (p p' : Project) :
  MembershipCreated role filePath p p' ->
  MembershipCreated role filePath p (SpecModel.attach g f filePath p').
Proof.
  intros (f0 & b & refObj & H1 & H2 & H3 & H4 & H5 & k & before & H6 & H7).
  exists f0, b, refObj. repeat (split; [assumption |]).
  exists k, before. split; [| exact H7]. destruct role; exact H6.
Qed.

Lemma spec_addSourceFile_ok (filePath g : string) (p p' : Project) :
  SpecModel.addSourceFile filePath g p = (p', Returned tt) ->
  MembershipCreated Sources filePath p p'.
Proof.
  unfold SpecModel.addSourceFile.
  pose proof (membership_after_record Sources filePath p) as H.
  destruct (SpecModel.createFileRecord filePath p) as [f p1].
  intros E. inversion E; subst p'. now apply MembershipCreated_attach.
Qed.

Lemma spec_addFramework_ok (filePath : string) (p p' : Project) :
  SpecModel.addFramework filePath p = (p', Returned tt) ->
  MembershipCreated Frameworks filePath p p'.
Proof.
  unfold SpecModel.addFramework.
  pose proof (membership_after_record Frameworks filePath p) as H.
  destruct (SpecModel.createFileRecord filePath p) as [f p1].
  intros E. inversion E; subst p'. exact H.
Qed.

Lemma spec_addResourceFile_ok (filePath : string) (p p' : Project) :
  SpecModel.addResourceFile filePath p = (p', Returned tt) ->
  MembershipCreated Resources filePath p p'.
Proof.
  unfold SpecModel.addResourceFile.
  pose proof (membership_after_record Resources filePath p) as H.
  destruct (SpecModel.createFileRecord filePath p) as [f p1].
  intros E. inversion E; subst p'. exact H.
Qed.

Lemma spec_addHeaderFile_ok (filePath g : string) (p p' : Project) :
  SpecModel.addHeaderFile filePath g p = (p', Returned tt) ->
  NoMembership p p'.
Proof.
  unfold SpecModel.addHeaderFile, SpecModel.createFileRecord.
  intros E. inversion E; subst p'. split; [reflexivity |].
  intros role. destruct role; reflexivity.
Qed.

Lemma spec_pbxCreateGroup_ok (root groupName : string) (p p' : Project) (k : string) :
  SpecModel.pbxCreateGroup root groupName p = (p', Returned k) ->
  PBXFileReference p' = PBXFileReference p
  /\ PBXBuildFile p' = PBXBuildFile p
  /\ forall r, phasesOf r p' = phasesOf r p.
Proof.
  unfold SpecModel.pbxCreateGroup. intros E. inversion E; subst.
  split; [reflexivity | split; [reflexivity |]].
  intros r. destruct r; reflexivity.
Qed.

Lemma inGroup_spec_returns (base : XcodeLib) (root : string)
  (groupName : option string) (fallback : string) (addTo : string -> M unit)
  (p : Project) :
  (forall g q, exists q', addTo g q = (q', Returned tt)) ->
  exists p', @inGroup (SpecModel.specLib root base) groupName fallback addTo p
             = (p', Returned tt).
Proof.
  intros Hadd. unfold inGroup.
  assert (Hnew : exists p',
             (newGroupKey <- @pbxCreateGroup (SpecModel.specLib root base) fallback ;;
              addTo newGroupKey) p = (p', Returned tt)).
  { unfold bind. simpl. apply Hadd. }
  destruct groupName as [g |]; [destruct (Js.truthy g) |]; auto.
Qed.

Lemma syncAdd_spec_proceeds (host : NodeHost) (base : XcodeLib)
  (root iosPath filePath : string) (p : Project) :
  existsSync (joinPath [iosPath; filePath]) = true ->
  exists p' result,
    @syncAdd host (SpecModel.specLib root base) iosPath filePath p
    = (p', Returned (Proceed result)).
Proof.
  intros Hexists. unfold syncAdd. rewrite Hexists.
  change (negb true) with false. cbv beta iota zeta.
  destruct (classify (extensionOf filePath)); unfold bind at 1.
  - destruct (inGroup_spec_returns base root (findSourceGroup p (PBXGroup p)) "Sources"
                (@addSourceFile (SpecModel.specLib root base) filePath) p)
      as (p' & ->); [| unfold ret; eauto].
    intros g q. simpl. unfold SpecModel.addSourceFile. simpl. eauto.
  - destruct (inGroup_spec_returns base root (findSourceGroup p (PBXGroup p)) "Headers"
                (@addHeaderFile (SpecModel.specLib root base) filePath) p)
      as (p' & ->); [| unfold ret; eauto].
    intros g q. simpl. unfold SpecModel.addHeaderFile. simpl. eauto.
  - simpl. unfold ret. eauto.
  - simpl. unfold ret. eauto.
Qed.

(** C6. With the library's methods as the specification describes them, an
    [add] of a file that exists goes through, and it creates, for a source
    file, a resource or a framework or library, a build membership that
    references the new file record and is the last member of a phase of
    the Sources, Resources or Frameworks table respectively; for a header
    it creates no build membership and changes no phase. *)
Theorem add_membership_by_kind :
  forall (host : NodeHost) (base : XcodeLib) (root iosPath filePath : string)
         (p : Project),
    existsSync (joinPath [iosPath; filePath]) = true ->
    exists p' result,
      @syncAdd host (SpecModel.specLib root base) iosPath filePath p
      = (p', Returned (Proceed result))
      /\ let kind := classify (extensionOf filePath) in
         (kind = Source -> MembershipCreated Sources filePath p p')
         /\ (kind = Resource -> MembershipCreated Resources filePath p p')
         /\ (kind = FrameworkOrLibrary -> MembershipCreated Frameworks filePath p p')
         /\ (kind = Header -> NoMembership p p').
Proof.
  intros host base root iosPath filePath p Hexists.
  destruct (syncAdd_spec_proceeds host base root iosPath filePath p Hexists)
    as (p' & result & Hrun).
  exists p', result. split; [exact Hrun |]. intros kind.
  pose proof (@syncAdd_membership host (SpecModel.specLib root base)
                (@spec_addSourceFile_ok) (@spec_addFramework_ok)
                (@spec_addResourceFile_ok) (@spec_addHeaderFile_ok)
                (@spec_pbxCreateGroup_ok root)
                iosPath filePath result p p' Hrun) as H.
  fold kind in H.
  split; [| split; [| split]]; intros E; rewrite E in H; exact H.
Qed.

(** Witness for C6: a Swift file, a header, a static library and an image
    that exist on the sample disk, each added to [twoTargets]. *)
Lemma add_membership_by_kind_witness :
  let host := sampleHost ["/app/ios/B.swift"; "/app/ios/B.h"; "/app/ios/libB.a";
                          "/app/ios/B.png"] in
  let lib := SpecModel.specLib "G1" (failingLib twoTargets) in
  MembershipCreated Sources "B.swift" twoTargets
    (fst (@syncAdd host lib "/app/ios" "B.swift" twoTargets))
  /\ NoMembership twoTargets (fst (@syncAdd host lib "/app/ios" "B.h" twoTargets))
  /\ MembershipCreated Frameworks "libB.a" twoTargets
       (fst (@syncAdd host lib "/app/ios" "libB.a" twoTargets))
  /\ MembershipCreated Resources "B.png" twoTargets
       (fst (@syncAdd host lib "/app/ios" "B.png" twoTargets)).
Proof.
  intros host lib.
  destruct (@add_membership_by_kind host (failingLib twoTargets) "G1" "/app/ios"
              "B.swift" twoTargets eq_refl) as (p1 & r1 & E1 & H1 & _).
  destruct (@add_membership_by_kind host (failingLib twoTargets) "G1" "/app/ios"
              "B.h" twoTargets eq_refl) as (p2 & r2 & E2 & _ & _ & _ & H2).
  destruct (@add_membership_by_kind host (failingLib twoTargets) "G1" "/app/ios"
              "libB.a" twoTargets eq_refl) as (p3 & r3 & E3 & _ & _ & H3 & _).
  destruct (@add_membership_by_kind host (failingLib twoTargets) "G1" "/app/ios"
              "B.png" twoTargets eq_refl) as (p4 & r4 & E4 & _ & H4 & _).
  unfold lib. rewrite E1, E2, E3, E4. simpl fst.
  split; [exact (H1 eq_refl) |]. split; [exact (H2 eq_refl) |].
  split; [exact (H3 eq_refl) | exact (H4 eq_refl)].
Defined.

(** * Further properties of the source *)

(** ** Headers of the upgrade diff *)

Lemma closesHeader_not_space (a : ascii) (s : string) :
  Ascii.eqb a " "%char = false -> closesHeader (String a s) = false.
Proof.
  intros H. unfold closesHeader.
  change (Js.startsWith (String a s) " b/")
    with (Ascii.eqb " "%char a && Js.startsWith s "b/").
  now rewrite Ascii.eqb_sym, H.
Qed.

Lemma lazyGroup_path (p rest : string) :
  p <> EmptyString ->
  stringForall pathChar p = true ->
  closesHeader rest = true ->
  lazyGroup (p ++ rest) = Some p.
Proof.
  induction p as [| a p IH]; intros Hne Hchars Hrest; [contradiction |].
  simpl in Hchars. apply andb_true_iff in Hchars as [Ha Hp].
  unfold pathChar in Ha. apply andb_true_iff in Ha as [Hterm Hspace].
  apply negb_true_iff in Hterm, Hspace.
  simpl. rewrite Hterm.
  destruct p as [| b p].
  - simpl. now rewrite Hrest.
  - assert (Hb : Ascii.eqb b " "%char = false).
    { simpl in Hp. apply andb_true_iff in Hp as [Hb _].
      unfold pathChar in Hb. apply andb_true_iff in Hb as [_ Hb].
      now apply negb_true_iff in Hb. }
    change ((String b p ++ rest)%string) with (String b (p ++ rest)).
    rewrite closesHeader_not_space by exact Hb.
    change (String b (p ++ rest)) with ((String b p ++ rest)%string).
    rewrite IH; [reflexivity | discriminate | exact Hp | exact Hrest].
Qed.

Lemma startsWith_append (pre s : string) : Js.startsWith (pre ++ s) pre = true.
Proof.
  induction pre as [| a pre IH]; simpl.
  - now destruct s.
  - now rewrite Ascii.eqb_refl.
Qed.

Lemma substring_append (pre s : string) :
  Js.substring (String.length pre) (pre ++ s) = s.
Proof.
  induction pre as [| a pre IH]; simpl; [reflexivity | exact IH].
Qed.

Lemma matchHere_header (rest : string) :
  matchHere ("diff --git a/" ++ rest) = lazyGroup rest.
Proof.
  unfold matchHere. rewrite startsWith_append.
  change 13 with (String.length "diff --git a/").
  now rewrite substring_append.
Qed.

Lemma headerMatch_here (line p : string) :
  matchHere line = Some p -> headerMatch line = Some p.
Proof.
  intros H. destruct line as [| a line].
  - discriminate H.
  - change (headerMatch (String a line))
      with (match matchHere (String a line) with
            | Some p0 => Some p0
            | None => headerMatch line
            end).
    now rewrite H.
Qed.

(** X1. A header line built from a path without spaces or line breaks is
    recognised as a header, and the path read back from it is that path. *)
Theorem headerMatch_round_trip :
  forall (p q : string),
    p <> EmptyString ->
    stringForall pathChar p = true ->
    closesHeader (" b/" ++ q) = true ->
    let line := "diff --git a/" ++ p ++ " b/" ++ q in
    isGitHeader line = true
    /\ headerMatch line = Some p
    /\ isHeaderOf p line = true.
Proof.
  intros p q Hne Hchars Hq line.
  assert (Hmatch : headerMatch line = Some p).
  { apply headerMatch_here. unfold line. rewrite matchHere_header.
    now apply lazyGroup_path. }
  assert (Hgit : isGitHeader line = true) by (unfold line; reflexivity).
  split; [exact Hgit |]. split; [exact Hmatch |].
  unfold isHeaderOf. rewrite Hgit, Hmatch. simpl. apply String.eqb_refl.
Qed.

(** Witness for X1. *)
Lemma headerMatch_round_trip_witness :
  headerMatch "diff --git a/ios/App/AppDelegate.mm b/ios/App/AppDelegate.mm"
  = Some "ios/App/AppDelegate.mm".
Proof.
  exact (proj1 (proj2 (@headerMatch_round_trip
                         "ios/App/AppDelegate.mm" "ios/App/AppDelegate.mm"
                         ltac:(discriminate) eq_refl eq_refl))).
Defined.

(** ** The list of files of a diff *)

Lemma setAdd_In (s : list string) (x y : string) :
  In y (setAdd s x) <-> In y s \/ y = x.
Proof.
  unfold setAdd. destruct (existsb (String.eqb x) s) eqn:E.
  - split; [tauto |]. intros [H | ->]; [exact H |].
    apply existsb_exists in E as (z & Hz & Heq).
    apply String.eqb_eq in Heq. now subst z.
  - rewrite in_app_iff. simpl. intuition (subst; auto).
Qed.

Lemma setAdd_NoDup (s : list string) (x : string) :
  NoDup s -> NoDup (setAdd s x).
Proof.
  intros H. unfold setAdd. destruct (existsb (String.eqb x) s) eqn:E; [exact H |].
  apply NoDup_app; [exact H | repeat constructor; auto |].
  intros y Hy [Heq | []]. subst y.
  assert (existsb (String.eqb x) s = true); [| congruence].
  apply existsb_exists. exists x. split; [exact Hy | apply String.eqb_refl].
Qed.

Lemma fold_setAdd (l acc : list string) :
  NoDup acc ->
  NoDup (fold_left setAdd l acc)
  /\ forall y, In y (fold_left setAdd l acc) <-> In y acc \/ In y l.
Proof.
  revert acc. induction l as [| x l IH]; intros acc Hacc; simpl.
  - split; [exact Hacc | tauto].
  - destruct (IH (setAdd acc x) (setAdd_NoDup x Hacc)) as [Hnd Hin].
    split; [exact Hnd |]. intros y. rewrite Hin, setAdd_In. intuition auto.
Qed.

Lemma pushedFiles_In (f : string) (lines : list string) :
  In f (pushedFiles lines)
  <-> exists line, In line lines /\ isHeaderOf f line = true.
Proof.
  induction lines as [| line rest IH]; simpl.
  - split; [contradiction | intros (l & [] & _)].
  - assert (Hhead : isHeaderOf f line = true
                    <-> isGitHeader line = true /\ headerMatch line = Some f).
    { unfold isHeaderOf. rewrite andb_true_iff.
      destruct (headerMatch line) as [p |].
      - rewrite String.eqb_eq. split; intros [H1 H2]; split; congruence.
      - split; intros [_ H]; discriminate. }
    destruct (isGitHeader line) eqn:Hgit;
      [destruct (headerMatch line) as [p |] eqn:Hm |].
    + simpl. rewrite IH. split.
      * intros [<- | (l & Hl & Hh)].
        -- exists line. split; [now left | apply Hhead; auto].
        -- exists l. split; [now right | exact Hh].
      * intros (l & [<- | Hl] & Hh).
        -- left. apply Hhead in Hh as [_ Hh]. congruence.
        -- right. eauto.
    + rewrite IH. split.
      * intros (l & Hl & Hh). exists l. split; [now right | exact Hh].
      * intros (l & [<- | Hl] & Hh); [| eauto].
        apply Hhead in Hh as [_ Hh]. discriminate.
    + rewrite IH. split.
      * intros (l & Hl & Hh). exists l. split; [now right | exact Hh].
      * intros (l & [<- | Hl] & Hh); [| eauto].
        apply Hhead in Hh as [Hh _]. discriminate.
Qed.

Lemma parseFilesFromDiff_NoDup_In (diffContent : string) :
  NoDup (parseFilesFromDiff diffContent)
  /\ forall f, In f (parseFilesFromDiff diffContent)
               <-> In f (pushedFiles (linesOf diffContent)).
Proof.
  unfold parseFilesFromDiff, setOf.
  destruct (fold_setAdd (pushedFiles (linesOf diffContent)) (NoDup_nil string))
    as [Hnd Hin].
  split; [exact Hnd |]. intros f. rewrite Hin. simpl. tauto.
Qed.

Lemma parseFilesFromDiff_exact_In (diffContent f : string) :
  In f (parseFilesFromDiff diffContent) ->
  exists line, In line (linesOf diffContent) /\ isHeaderOf f line = true.
Proof.
  intros H. apply pushedFiles_In. now apply parseFilesFromDiff_NoDup_In.
Qed.

(** X2. The files listed for a diff are exactly the paths of its header
    lines, each listed once. *)
Theorem parseFilesFromDiff_exact :
  forall (diffContent : string),
    NoDup (parseFilesFromDiff diffContent)
    /\ forall f,
         In f (parseFilesFromDiff diffContent)
         <-> exists line, In line (linesOf diffContent) /\ isHeaderOf f line = true.
Proof.
  intros diffContent.
  destruct (parseFilesFromDiff_NoDup_In diffContent) as [Hnd Hin].
  split; [exact Hnd |].
  intros f. rewrite Hin. apply pushedFiles_In.
Qed.

(** ** The section of one file *)

Lemma isHeaderOf_git (f line : string) :
  isHeaderOf f line = true -> isGitHeader line = true.
Proof.
  unfold isHeaderOf. intros H. now apply andb_true_iff in H as [H _].
Qed.

Lemma extractLoop_inside (f : string) (lines pre body : list string) (h : string) :
  isHeaderOf f h = true ->
  Forall notGitHeader body ->
  exists pre' h' body' post,
    (pre ++ h :: body ++ lines)%list = (pre' ++ h' :: body' ++ post)%list
    /\ extractLoop f lines true (h :: body) = h' :: body'
    /\ isHeaderOf f h' = true
    /\ Forall notGitHeader body'
    /\ match post with
       | [] => True
       | next :: _ => isGitHeader next = true
       end.
Proof.
  revert pre h body. induction lines as [| line rest IH]; intros pre h body Hh Hbody.
  - exists pre, h, body, []. simpl. auto.
  - simpl. destruct (isHeaderOf f line) eqn:Hline.
    + destruct (IH (pre ++ h :: body)%list line [] Hline (Forall_nil _))
        as (pre' & h' & body' & post & Heq & Hrun & H1 & H2 & H3).
      exists pre', h', body', post. split; [| auto].
      rewrite <- Heq. rewrite <- app_assoc. reflexivity.
    + destruct (isGitHeader line) eqn:Hgit.
      * exists pre, h, body, (line :: rest). auto.
      * destruct (IH pre h (body ++ [line])%list Hh) as
          (pre' & h' & body' & post & Heq & Hrun & H1 & H2 & H3).
        { apply Forall_app. split; [exact Hbody | repeat constructor; exact Hgit]. }
        exists pre', h', body', post. split; [| auto].
        rewrite <- Heq. rewrite <- app_assoc. reflexivity.
Qed.

Lemma extractLoop_outside (f : string) (lines pre : list string) :
  (exists line, In line lines /\ isHeaderOf f line = true) ->
  exists pre' h' body' post,
    (pre ++ lines)%list = (pre' ++ h' :: body' ++ post)%list
    /\ extractLoop f lines false [] = h' :: body'
    /\ isHeaderOf f h' = true
    /\ Forall notGitHeader body'
    /\ match post with
       | [] => True
       | next :: _ => isGitHeader next = true
       end.
Proof.
  revert pre. induction lines as [| line rest IH]; intros pre (l & Hin & Hl).
  - contradiction.
  - simpl. destruct (isHeaderOf f line) eqn:Hline.
    + exact (@extractLoop_inside f rest pre [] line Hline (Forall_nil _)).
    + destruct Hin as [<- | Hin]; [congruence |].
      destruct (IH (pre ++ [line])%list (ex_intro _ l (conj Hin Hl)))
        as (pre' & h' & body' & post & Heq & Hrun & H1 & H2 & H3).
      exists pre', h', body', post. split; [| auto].
      rewrite <- Heq. rewrite <- app_assoc. reflexivity.
Qed.

Lemma extractLoop_no_header (f : string) (lines : list string) :
  (forall line, In line lines -> isHeaderOf f line = false) ->
  extractLoop f lines false [] = [].
Proof.
  induction lines as [| line rest IH]; intros H; simpl; [reflexivity |].
  rewrite (H line (or_introl eq_refl)). apply IH.
  intros l Hl. apply H. now right.
Qed.

(** X3. When no line of the diff is a header of the file, the section
    extracted for the file is the empty string. *)
Theorem extractFileDiff_absent :
  forall (diffContent fileName : string),
    (forall line, In line (linesOf diffContent) -> isHeaderOf fileName line = false) ->
    extractFileDiff diffContent fileName = EmptyString.
Proof.
  intros diffContent fileName H. unfold extractFileDiff.
  now rewrite extractLoop_no_header.
Qed.

(** Witness for X3: the empty diff. *)
Lemma extractFileDiff_absent_witness :
  extractFileDiff EmptyString "App.js" = EmptyString.
Proof.
  apply extractFileDiff_absent.
  intros line [<- | []]. reflexivity.
Defined.

(** X4. When the diff has a header line of the file, the section extracted
    is a block of consecutive lines of the diff: it starts with a header
    line of the file, contains no other header line, and ends at the last
    line of the diff or just before the next header line. *)
Theorem extractFileDiff_block :
  forall (diffContent fileName : string),
    (exists line, In line (linesOf diffContent) /\ isHeaderOf fileName line = true) ->
    exists before header body after,
      linesOf diffContent = (before ++ header :: body ++ after)%list
      /\ extractFileDiff diffContent fileName = Js.join newline (header :: body)
      /\ isHeaderOf fileName header = true
      /\ Forall notGitHeader body
      /\ match after with
         | [] => True
         | next :: _ => isGitHeader next = true
         end.
Proof.
  intros diffContent fileName H.
  destruct (@extractLoop_outside fileName (linesOf diffContent) [] H)
    as (pre & h & body & post & Heq & Hrun & H1 & H2 & H3).
  exists pre, h, body, post. unfold extractFileDiff. rewrite Hrun. auto.
Qed.

(** Witness for X4: a diff of two files. *)
Lemma extractFileDiff_block_witness :
  exists before header body after,
    linesOf ("diff --git a/A b/A" ++ newline ++ "+x" ++ newline ++ "diff --git a/B b/B")
    = (before ++ header :: body ++ after)%list
    /\ extractFileDiff
         ("diff --git a/A b/A" ++ newline ++ "+x" ++ newline ++ "diff --git a/B b/B") "A"
       = Js.join newline (header :: body).
Proof.
  destruct (@extractFileDiff_block
              ("diff --git a/A b/A" ++ newline ++ "+x" ++ newline ++ "diff --git a/B b/B")
              "A")
    as (before & header & body & after & H1 & H2 & _).
  - exists "diff --git a/A b/A". split; [left; reflexivity | reflexivity].
  - exists before, header, body, after. split; assumption.
Defined.

Lemma join_cons_cons (sep x y : string) (l : list string) :
  Js.join sep (x :: y :: l) = x ++ sep ++ Js.join sep (y :: l).
Proof. reflexivity. Qed.

Lemma join_header_truthy (h : string) (body : list string) :
  isGitHeader h = true -> Js.truthy (Js.join newline (h :: body)) = true.
Proof.
  intros H. destruct h as [| c h]; [discriminate H |].
  destruct body as [| y body]; [reflexivity |].
  rewrite join_cons_cons. reflexivity.
Qed.

Lemma join_split (c : ascii) (s : string) :
  Js.join (String c EmptyString) (Js.split c s) = s.
Proof.
  induction s as [| a s IH]; [reflexivity |].
  pose proof (split_not_nil c s) as Hne.
  simpl Js.split. set (l := Js.split c s) in *.
  destruct l as [| h t]; [contradiction |].
  destruct (Ascii.eqb_spec a c) as [-> | Hneq].
  - rewrite join_cons_cons.
    change (String c (Js.join (String c EmptyString) (h :: t)) = String c s).
    now rewrite IH.
  - destruct t as [| y t].
    + change (String a h = String a s). change (h = s) in IH. now rewrite IH.
    + rewrite join_cons_cons. rewrite join_cons_cons in IH.
      change (String a (h ++ String c EmptyString ++ Js.join (String c EmptyString) (y :: t))
              = String a s).
      now rewrite IH.
Qed.

Lemma extractLoop_body (f : string) (lines fileDiff : list string) :
  Forall notGitHeader lines ->
  extractLoop f lines true fileDiff = (fileDiff ++ lines)%list.
Proof.
  revert fileDiff. induction lines as [| line rest IH]; intros fileDiff H; simpl.
  - now rewrite app_nil_r.
  - inversion H as [| ? ? Hline Hrest]; subst.
    unfold isHeaderOf. unfold notGitHeader in Hline. rewrite Hline. simpl.
    rewrite IH by exact Hrest. now rewrite <- app_assoc.
Qed.

(** X5. A diff that consists of the section of one file is returned whole:
    when its first line is a header line of the file and no later line is
    a header line, the section extracted is the diff itself. *)
Theorem extractFileDiff_whole :
  forall (diffContent fileName header : string) (body : list string),
    linesOf diffContent = header :: body ->
    isHeaderOf fileName header = true ->
    Forall notGitHeader body ->
    extractFileDiff diffContent fileName = diffContent.
Proof.
  intros diffContent fileName header body Hlines Hheader Hbody.
  assert (E : extractLoop fileName (header :: body) false [] = header :: body).
  { simpl. rewrite Hheader. now rewrite extractLoop_body. }
  unfold extractFileDiff. rewrite Hlines, E, <- Hlines.
  exact (join_split (ascii_of_nat 10) diffContent).
Qed.

(** Witness for X5. *)
Lemma extractFileDiff_whole_witness :
  extractFileDiff ("diff --git a/A b/A" ++ newline ++ "+x") "A"
  = "diff --git a/A b/A" ++ newline ++ "+x".
Proof.
  apply (@extractFileDiff_whole _ "A" "diff --git a/A b/A" ["+x"]).
  - reflexivity.
  - reflexivity.
  - repeat constructor.
Defined.

(** ** The cache and the tool that answers with one section *)

Lemma cacheGet_cacheSet (key value : string) (cache : Cache) :
  cacheGet (cacheSet key value cache) key = Some value.
Proof.
  unfold cacheSet. simpl. now rewrite String.eqb_refl.
Qed.

Lemma cacheGet_cacheSet_other (key other value : string) (cache : Cache) :
  other <> key ->
  cacheGet (cacheSet key value cache) other = cacheGet cache other.
Proof.
  intros Hneq. unfold cacheSet. simpl.
  assert (E : (key =? other) = false) by (apply String.eqb_neq; congruence).
  rewrite E. induction cache as [| [k v] rest IH]; simpl; [reflexivity |].
  destruct (k =? key) eqn:Ek; simpl.
  - apply String.eqb_eq in Ek. subst k. rewrite E. exact IH.
  - destruct (k =? other); [reflexivity | exact IH].
Qed.

(** X6. Once a diff was obtained for a pair of versions, every later
    request for the pair is answered with the same diff from the cache,
    whatever the network would answer then, and the cache stays as it is;
    what is cached for another key is not changed by the first request. *)
Theorem fetchDiffWithCache_hit :
  forall (network later : string -> Outcome string)
         (fromVersion toVersion diffContent : string) (cache cache' : Cache),
    fetchDiffWithCache network fromVersion toVersion cache
    = (cache', Returned diffContent) ->
    fetchDiffWithCache later fromVersion toVersion cache'
    = (cache', Returned diffContent)
    /\ forall other,
         other <> fromVersion ++ ".." ++ toVersion ->
         cacheGet cache' other = cacheGet cache other.
Proof.
  intros network later fromVersion toVersion diffContent cache cache' H.
  unfold fetchDiffWithCache in *.
  destruct (cacheGet cache (fromVersion ++ ".." ++ toVersion)) as [d |] eqn:Hget.
  - inversion H; subst. rewrite Hget. auto.
  - destruct (network (diffUrl (fromVersion ++ ".." ++ toVersion))) as [d | e];
      inversion H; subst.
    rewrite cacheGet_cacheSet. split; [reflexivity |].
    intros other Hother. now apply cacheGet_cacheSet_other.
Qed.

(** Witness for X6: an empty cache and a network that answers. *)
Lemma fetchDiffWithCache_hit_witness :
  fetchDiffWithCache (fun _ => Thrown (ErrorObject "offline")) "0.72.0" "0.73.0"
    [("0.72.0..0.73.0", "diff")]
  = ([("0.72.0..0.73.0", "diff")], Returned "diff").
Proof.
  exact (proj1 (@fetchDiffWithCache_hit
                  (fun _ => Returned "diff") (fun _ => Thrown (ErrorObject "offline"))
                  "0.72.0" "0.73.0" "diff" [] [("0.72.0..0.73.0", "diff")] eq_refl)).
Defined.

(** X7. A request that fails leaves the cache as it was, so nothing is
    cached for the pair and the next request asks the network again. *)
Theorem fetchDiffWithCache_failure :
  forall (network later : string -> Outcome string)
         (fromVersion toVersion : string) (cache cache' : Cache) (error : Exn),
    fetchDiffWithCache network fromVersion toVersion cache = (cache', Thrown error) ->
    cache' = cache
    /\ cacheGet cache (fromVersion ++ ".." ++ toVersion) = None
    /\ snd (fetchDiffWithCache later fromVersion toVersion cache')
       = later (diffUrl (fromVersion ++ ".." ++ toVersion)).
Proof.
  intros network later fromVersion toVersion cache cache' error H.
  unfold fetchDiffWithCache in *.
  destruct (cacheGet cache (fromVersion ++ ".." ++ toVersion)) as [d |] eqn:Hget;
    [discriminate |].
  destruct (network (diffUrl (fromVersion ++ ".." ++ toVersion))) as [d | e];
    inversion H; subst.
  rewrite Hget. repeat split.
  destruct (later (diffUrl (fromVersion ++ ".." ++ toVersion))); reflexivity.
Qed.

(** Witness for X7. *)
Lemma fetchDiffWithCache_failure_witness :
  snd (fetchDiffWithCache (fun _ => Returned "diff") "0.72.0" "0.73.0" [])
  = Returned "diff".
Proof.
  exact (proj2 (proj2 (@fetchDiffWithCache_failure
                         (fun _ => Thrown (ErrorObject "offline"))
                         (fun _ => Returned "diff")
                         "0.72.0" "0.73.0" [] [] (ErrorObject "offline") eq_refl))).
Defined.

(** X8. For a file that the file list of the diff names, the tool answers
    with the section of the file, which is not empty: it never reports
    that the file has no changes. *)
Theorem get_file_specific_diff_listed :
  forall (network : string -> Outcome string)
         (fileName fromVersion toVersion diffContent : string) (cache cache' : Cache),
    fetchDiffWithCache network fromVersion toVersion cache
    = (cache', Returned diffContent) ->
    In fileName (parseFilesFromDiff diffContent) ->
    extractFileDiff diffContent fileName <> EmptyString
    /\ get_file_specific_diff network fileName fromVersion toVersion cache
       = (cache',
          "Diff for " ++ fileName ++ ":" ++ newline ++ newline
          ++ extractFileDiff diffContent fileName).
Proof.
  intros network fileName fromVersion toVersion diffContent cache cache' Hfetch Hin.
  apply parseFilesFromDiff_exact_In in Hin.
  destruct (@extractLoop_outside fileName (linesOf diffContent) [] Hin)
    as (pre & h & body & post & _ & Hrun & Hh & _ & _).
  assert (Htruthy : Js.truthy (extractFileDiff diffContent fileName) = true).
  { unfold extractFileDiff. rewrite Hrun.
    apply join_header_truthy. exact (isHeaderOf_git _ _ Hh). }
  split.
  - intros E. rewrite E in Htruthy. discriminate.
  - unfold get_file_specific_diff. now rewrite Hfetch, Htruthy.
Qed.

(** Witness for X8: the diff of one file, obtained from the network. *)
Lemma get_file_specific_diff_listed_witness :
  get_file_specific_diff
    (fun _ => Returned ("diff --git a/A b/A" ++ newline ++ "+x")) "A" "0.72.0" "0.73.0" []
  = ([("0.72.0..0.73.0", "diff --git a/A b/A" ++ newline ++ "+x")],
     "Diff for A:" ++ newline ++ newline ++ "diff --git a/A b/A" ++ newline ++ "+x").
Proof.
  refine (proj2 (@get_file_specific_diff_listed
                   (fun _ => Returned ("diff --git a/A b/A" ++ newline ++ "+x"))
                   "A" "0.72.0" "0.73.0" ("diff --git a/A b/A" ++ newline ++ "+x")
                   [] _ eq_refl _)).
  vm_compute. left. reflexivity.
Defined.

(** ** The analysis of a file name *)

Lemma binary_extension_truthy (extension : string) :
  existsb (String.eqb extension) binaryExtensions = true ->
  Js.truthy extension = true.
Proof.
  intros H. apply existsb_exists in H as (x & Hin & Heq).
  apply String.eqb_eq in Heq. subst x.
  simpl in Hin.
  repeat (destruct Hin as [<- | Hin]; [reflexivity |]). contradiction.
Qed.

Lemma find_migration (fileName : string) :
  match find (concernsMigration fileName) complexMigrations with
  | Some _ => existsb (Js.includes fileName) migrationNames = true
  | None => existsb (Js.includes fileName) migrationNames = false
  end.
Proof.
  unfold complexMigrations, migrationNames, concernsMigration. simpl.
  destruct (Js.includes fileName "AppDelegate.mm");
    destruct (Js.includes fileName "AppDelegate.swift");
    destruct (Js.includes fileName "AppDelegate.m");
    destruct (Js.includes fileName "MainActivity.java");
    destruct (Js.includes fileName "MainActivity.kt"); reflexivity.
Qed.

(** X9. The file type reported for a name is decided in this order: a
    name that includes one of the migration names is a complex migration,
    whatever its extension; otherwise a name whose lowercased extension is
    one of the binary extensions is binary; every other name is patchable
    (the test for script files never changes the type). *)
Theorem analyzeFileType_decision :
  forall (fileName : string),
    let fileType := fst (analyzeFileType fileName) in
    let complex := existsb (Js.includes fileName) migrationNames in
    let binary := existsb (String.eqb (extensionOf fileName)) binaryExtensions in
    (complex = true -> fileType = "complex_migration")
    /\ (complex = false -> binary = true -> fileType = "binary_manual")
    /\ (complex = false -> binary = false -> fileType = "patchable").
Proof.
  intros fileName fileType complex binary.
  pose proof (find_migration fileName) as Hfind.
  unfold fileType, analyzeFileType. fold (extensionOf fileName). fold binary.
  destruct (find (concernsMigration fileName) complexMigrations) as [m |];
    fold complex in Hfind.
  - split; [reflexivity |]. split; intros E; congruence.
  - split; [congruence |]. split; intros _ Hb.
    + rewrite Hb. rewrite (binary_extension_truthy _ Hb). reflexivity.
    + rewrite Hb, andb_false_r.
      destruct (existsb _ scriptFiles); reflexivity.
Qed.

(** ** The version of React Native *)

Lemma cleanVersion_plain (v : string) :
  stringForall noRangeMark v = true -> cleanVersion v = v.
Proof.
  induction v as [| a v IH]; simpl; [reflexivity |].
  intros H. apply andb_true_iff in H as [Ha Hv].
  apply negb_true_iff in Ha. rewrite Ha. now rewrite IH.
Qed.

(** X10. Cleaning a version removes its first caret or tilde and nothing
    else; a version without either is left as it is. *)
Theorem cleanVersion_first_mark :
  forall (before after : string) (mark : ascii),
    stringForall noRangeMark before = true ->
    isRangeMark mark = true ->
    cleanVersion (before ++ String mark after) = before ++ after
    /\ cleanVersion before = before.
Proof.
  intros before after mark Hbefore Hmark.
  split; [| now apply cleanVersion_plain].
  induction before as [| a before IH]; simpl.
  - now rewrite Hmark.
  - simpl in Hbefore. apply andb_true_iff in Hbefore as [Ha Hb].
    apply negb_true_iff in Ha. rewrite Ha. now rewrite IH.
Qed.

(** Witness for X10: a range that starts with a comparison. *)
Lemma cleanVersion_first_mark_witness :
  cleanVersion ">=0.70.0 ^0.72.0" = ">=0.70.0 0.72.0".
Proof.
  exact (proj1 (@cleanVersion_first_mark ">=0.70.0 " "0.72.0" "^"%char eq_refl eq_refl)).
Defined.

(** X11. When [package.json] exists and parses, the version reported is
    the cleaned entry of [dependencies] if that entry is a non-empty
    string, whatever [devDependencies] holds; the entry of
    [devDependencies] is used only when [dependencies] has none or an
    empty one. *)
Theorem get_current_rn_version_precedence :
  forall (host : NodeHost) (readPackageJson : string -> Outcome PackageJson)
         (args : Args) (packageJson : PackageJson),
    let packageJsonPath := joinPath [projectPath args; "package.json"] in
    existsSync packageJsonPath = true ->
    readPackageJson packageJsonPath = Returned packageJson ->
    (forall v, dependency packageJson = Some v -> Js.truthy v = true ->
               get_current_rn_version readPackageJson args
               = Returned ("Current React Native version: " ++ cleanVersion v))
    /\ (forall w,
           dependency packageJson = None \/ dependency packageJson = Some EmptyString ->
           devDependency packageJson = Some w -> Js.truthy w = true ->
           get_current_rn_version readPackageJson args
           = Returned ("Current React Native version: " ++ cleanVersion w))
    /\ (dependency packageJson = None \/ dependency packageJson = Some EmptyString ->
        devDependency packageJson = None \/ devDependency packageJson = Some EmptyString ->
        get_current_rn_version readPackageJson args
        = Returned "Error: react-native not found in dependencies").
Proof.
  intros host readPackageJson args packageJson packageJsonPath Hexists Hread.
  unfold get_current_rn_version. fold packageJsonPath. rewrite Hexists, Hread. simpl.
  split; [| split].
  - intros v Hdep Hv. unfold firstTruthy. now rewrite Hdep, Hv.
  - intros w Hdep Hdev Hw. unfold firstTruthy.
    destruct Hdep as [-> | ->]; simpl; now rewrite Hdev, Hw.
  - intros Hdep Hdev. unfold firstTruthy.
    destruct Hdep as [-> | ->], Hdev as [-> | ->]; reflexivity.
Qed.

(** Witness for X11: a caret range in [dependencies], another version in
    [devDependencies]. *)
Lemma get_current_rn_version_precedence_witness :
  @get_current_rn_version (sampleHost ["/app/package.json"])
    (fun _ => Returned {| dependency := Some "^0.72.0"; devDependency := Some "0.70.0" |})
    (sampleArgs "" "")
  = Returned "Current React Native version: 0.72.0".
Proof.
  exact (proj1 (@get_current_rn_version_precedence
                  (sampleHost ["/app/package.json"])
                  (fun _ => Returned {| dependency := Some "^0.72.0";
                                        devDependency := Some "0.70.0" |})
                  (sampleArgs "" "") _ eq_refl eq_refl)
           "^0.72.0" eq_refl eq_refl).
Defined.

(** ** What the project tool writes *)

Section Writes.

Context {host : NodeHost} {lib : XcodeLib}.

Lemma handleToolCall_writes_switch (name : string) (args : Args) :
  snd (handleToolCall name (Some args)) = snd (toolSwitch name args).
Proof.
  unfold handleToolCall.
  destruct (toolSwitch name args) as [[text | e] writes]; reflexivity.
Qed.

Lemma syncProject_writes (pbxprojPath iosPath operation filePath path data : string) :
  In (path, data) (snd (syncProject pbxprojPath iosPath operation filePath)) ->
  path = pbxprojPath
  /\ snd (syncProject pbxprojPath iosPath operation filePath) = [(path, data)]
  /\ exists p p' result,
       parseSync pbxprojPath = Returned p
       /\ syncOperation iosPath operation filePath p = (p', Returned (Proceed result))
       /\ writeSync p' = Returned data.
Proof.
  unfold syncProject.
  destruct (parseSync pbxprojPath) as [p | e] eqn:Hparse; [| contradiction].
  destruct (syncOperation iosPath operation filePath p)
    as [p' [[text | result] | e]] eqn:Hop; try contradiction.
  destruct (writeSync p') as [data' | e] eqn:Hwrite; [| contradiction].
  assert (Hin : In (path, data) [(pbxprojPath, data')] ->
                path = pbxprojPath /\ data = data').
  { intros [E | []]. inversion E. auto. }
  destruct (writeFileSync pbxprojPath data') as [u | e]; simpl; intros H;
    destruct (Hin H) as [Hp Hd]; subst path data;
    (split; [reflexivity | split; [reflexivity | exists p, p', result; auto]]).
Qed.

Lemma sync_xcode_project_writes (args : Args) (path data : string) :
  In (path, data) (snd (sync_xcode_project args)) ->
  Located args path
  /\ sync_xcode_project args
     = syncProject path (joinPath [projectPath args; "ios"])
         (operation args) (filePath args).
Proof.
  unfold sync_xcode_project, Located.
  set (iosPath := joinPath [projectPath args; "ios"]).
  destruct (existsSync iosPath) eqn:Hios; simpl; [| contradiction].
  destruct (readdirSync iosPath) as [names | e] eqn:Hdir; [| contradiction].
  destruct (find (fun f => Js.endsWith f ".xcodeproj") names) as [xcodeProj |] eqn:Hfind;
    [| contradiction].
  destruct (existsSync (joinPath [iosPath; xcodeProj; "project.pbxproj"])) eqn:Hpbx;
    simpl; [| contradiction].
  intros H. apply syncProject_writes in H as (-> & _).
  split; [| reflexivity].
  split; [reflexivity |]. exists names, xcodeProj. auto.
Qed.

End Writes.

(** X12. Whatever the tool and its arguments, a call writes at most one
    file, and only the project tool writes: the file is the project file
    it located, and the data is the serialisation of the project as the
    operation left it. *)
Theorem handleToolCall_writes :
  forall (host : NodeHost) (lib : XcodeLib) (name : string) (args : option Args)
         (path data : string),
    In (path, data) (snd (handleToolCall name args)) ->
    name = "sync_xcode_project"
    /\ snd (handleToolCall name args) = [(path, data)]
    /\ exists a p p' result,
         args = Some a
         /\ Located a path
         /\ parseSync path = Returned p
         /\ syncOperation (joinPath [projectPath a; "ios"]) (operation a) (filePath a) p
            = (p', Returned (Proceed result))
         /\ writeSync p' = Returned data.
Proof.
  intros host lib name [a |] path data; [| contradiction].
  rewrite handleToolCall_writes_switch. unfold toolSwitch.
  destruct (name =? "sync_xcode_project") eqn:Hname.
  - apply String.eqb_eq in Hname. intros H.
    destruct (sync_xcode_project_writes a path data H) as (Hlocated & E).
    rewrite E in H |- *.
    destruct (syncProject_writes _ _ _ _ _ _ H) as (_ & Hone & p & p' & result & H1 & H2 & H3).
    split; [exact Hname |]. split; [exact Hone |].
    exists a, p, p', result. auto.
  - destruct (existsb (String.eqb name) otherToolNames); contradiction.
Qed.

(** Witness for X12: the write of a removal that finds nothing. *)
Lemma handleToolCall_writes_witness :
  snd (@handleToolCall
         (sampleHost ["/app/ios"; "/app/ios/App.xcodeproj/project.pbxproj"])
         (failingLib twoTargets) "sync_xcode_project"
         (Some (sampleArgs "remove" "B.swift")))
  = [("/app/ios/App.xcodeproj/project.pbxproj", "// !$*UTF8*$!")].
Proof.
  exact (proj1 (proj2 (@handleToolCall_writes
                         (sampleHost ["/app/ios"; "/app/ios/App.xcodeproj/project.pbxproj"])
                         (failingLib twoTargets) "sync_xcode_project"
                         (Some (sampleArgs "remove" "B.swift"))
                         "/app/ios/App.xcodeproj/project.pbxproj" "// !$*UTF8*$!"
                         (or_introl eq_refl)))).
Defined.

(** X13. When the project file is located and either parsing it throws or
    the operation throws (a method of the library, during [add]), the tool
    answers with the error text of the project tool and writes nothing. *)
Theorem sync_throw_writes_nothing :
  forall (host : NodeHost) (lib : XcodeLib) (args : Args) (pbxprojPath : string)
         (error : Exn),
    Located args pbxprojPath ->
    (parseSync pbxprojPath = Thrown error
     \/ exists p q,
          parseSync pbxprojPath = Returned p
          /\ syncOperation (joinPath [projectPath args; "ios"])
               (operation args) (filePath args) p
             = (q, Thrown error)) ->
    handleToolCall "sync_xcode_project" (Some args)
    = (Returned (syncErrorText error), []).
Proof.
  intros host lib args pbxprojPath error Hlocated Hthrow.
  apply handleToolCall_sync_returned.
  rewrite (sync_xcode_project_located Hlocated). unfold syncProject.
  destruct Hthrow as [-> | (p & q & -> & ->)]; reflexivity.
Qed.

(** Witness for X13: the library throws while adding a file that exists. *)
Lemma sync_throw_writes_nothing_witness :
  @handleToolCall
    (sampleHost ["/app/ios"; "/app/ios/App.xcodeproj/project.pbxproj"; "/app/ios/B.swift"])
    (failingLib twoTargets) "sync_xcode_project" (Some (sampleArgs "add" "B.swift"))
  = (Returned (syncErrorText typeError), []).
Proof.
  apply (@sync_throw_writes_nothing
           (sampleHost ["/app/ios"; "/app/ios/App.xcodeproj/project.pbxproj";
                        "/app/ios/B.swift"])
           (failingLib twoTargets) (sampleArgs "add" "B.swift")
           "/app/ios/App.xcodeproj/project.pbxproj").
  - split; [reflexivity |].
    exists ["Podfile"; "App.xcodeproj"], "App.xcodeproj". repeat split; reflexivity.
  - right. exists twoTargets, twoTargets. split; reflexivity.
Defined.

(** ** More on the manual removal *)

Lemma filter_twice (A : Type) (f g : A -> bool) (l : list A) :
  filter g (filter f (filter g (filter f l))) = filter g (filter f l).
Proof.
  induction l as [| x l IH]; simpl; [reflexivity |].
  destruct (f x) eqn:Hf; simpl; [| exact IH].
  destruct (g x) eqn:Hg; simpl; [| exact IH].
  rewrite Hf. simpl. rewrite Hg. now rewrite IH.
Qed.

Lemma filter_same (A : Type) (f : A -> bool) (l : list A) :
  filter f (filter f l) = filter f l.
Proof.
  induction l as [| x l IH]; simpl; [reflexivity |].
  destruct (f x) eqn:Hf; simpl; [rewrite Hf; now rewrite IH | exact IH].
Qed.

Lemma deleteWithComment_idempotent (A : Type) (key : string) (t : Table A) :
  deleteWithComment key (deleteWithComment key t) = deleteWithComment key t.
Proof.
  unfold deleteWithComment, deleteKey. apply filter_twice.
Qed.

Lemma filterPhases_idempotent (uuid : option string) (section : Table BuildPhase) :
  filterPhases uuid (filterPhases uuid section) = filterPhases uuid section.
Proof.
  induction section as [| [k [ph | c]] rest IH]; simpl; [reflexivity | |].
  - destruct (isCommentKey k) eqn:E; simpl; rewrite E, IH; [reflexivity |].
    simpl. now rewrite filter_same.
  - destruct (isCommentKey k) eqn:E; simpl; rewrite E, IH; reflexivity.
Qed.

Lemma filterGroups_idempotent (ref : string) (groups : Table Group) :
  filterGroups ref (filterGroups ref groups) = filterGroups ref groups.
Proof.
  induction groups as [| [k [g | c]] rest IH]; simpl; [reflexivity | |].
  - destruct (isCommentKey k) eqn:E; simpl; rewrite E, IH; [reflexivity |].
    simpl. now rewrite filter_same.
  - destruct (isCommentKey k) eqn:E; simpl; rewrite E, IH; reflexivity.
Qed.

(** X14. Removing by hand a second time, with the same file reference and
    build file, changes nothing. *)
Theorem manualRemoval_idempotent :
  forall (ref : string) (buildFileUuid : option string) (p : Project),
    manualRemoval ref buildFileUuid (manualRemoval ref buildFileUuid p)
    = manualRemoval ref buildFileUuid p.
Proof.
  intros ref buildFileUuid p. unfold manualRemoval. simpl.
  rewrite deleteWithComment_idempotent, filterGroups_idempotent, !filterPhases_idempotent.
  f_equal.
  destruct buildFileUuid as [uuid |]; [| reflexivity].
  destruct (Js.truthy uuid); [| reflexivity].
  destruct (PBXBuildFile p) as [buildFiles |]; simpl; [| reflexivity].
  now rewrite deleteWithComment_idempotent.
Qed.

Lemma get_deleteKey_other (A : Type) (key k : string) (t : Table A) :
  k <> key -> get (deleteKey key t) k = get t k.
Proof.
  intros Hneq. induction t as [| [k0 e] rest IH]; simpl; [reflexivity |].
  destruct (k0 =? key) eqn:E; simpl.
  - apply String.eqb_eq in E. subst k0.
    assert (E' : (key =? k) = false) by (apply String.eqb_neq; congruence).
    now rewrite E'.
  - destruct (k0 =? k); [reflexivity | exact IH].
Qed.

Lemma get_deleteWithComment_other (A : Type) (key k : string) (t : Table A) :
  k <> key -> k <> key ++ "_comment" ->
  get (deleteWithComment key t) k = get t k.
Proof.
  intros H1 H2. unfold deleteWithComment.
  now rewrite !get_deleteKey_other.
Qed.

Lemma keysOf_filterGroups (ref : string) (groups : Table Group) :
  keysOf (filterGroups ref groups) = keysOf groups.
Proof.
  induction groups as [| [k [g | c]] rest IH]; simpl; [reflexivity | |];
    destruct (isCommentKey k); simpl; now rewrite <- IH.
Qed.

Lemma keysOf_filterPhases (uuid : option string) (section : Table BuildPhase) :
  keysOf (filterPhases uuid section) = keysOf section.
Proof.
  induction section as [| [k [ph | c]] rest IH]; simpl; [reflexivity | |];
    destruct (isCommentKey k); simpl; now rewrite <- IH.
Qed.

Lemma records_filterGroups_keeps (ref k : string) (g : Group) (groups : Table Group) :
  In (k, g) (records groups) ->
  In (k, {| children := filter (fun child => negb (value child =? ref)) (children g) |})
     (records (filterGroups ref groups)).
Proof.
  induction groups as [| [k0 [g0 | c]] rest IH]; simpl.
  - contradiction.
  - destruct (isCommentKey k0) eqn:E; simpl; rewrite E.
    + exact IH.
    + intros [H | H]; [inversion H; subst; now left | right; auto].
  - destruct (isCommentKey k0); simpl; exact IH.
Qed.

Lemma records_filterPhases_keeps (uuid : option string) (k : string) (ph : BuildPhase)
  (section : Table BuildPhase) :
  In (k, ph) (records section) ->
  In (k, {| files := filter (differsFrom uuid) (files ph) |})
     (records (filterPhases uuid section)).
Proof.
  induction section as [| [k0 [ph0 | c]] rest IH]; simpl.
  - contradiction.
  - destruct (isCommentKey k0) eqn:E; simpl; rewrite E.
    + exact IH.
    + intros [H | H]; [inversion H; subst; now left | right; auto].
  - destruct (isCommentKey k0); simpl; exact IH.
Qed.

(** X15. The manual removal touches nothing else: every other entry of the
    file reference table is kept, no group and no phase is deleted or
    reordered, every group keeps each child that is not the file
    reference, and every phase keeps each member that is not the build
    file. *)
Theorem manualRemoval_frame :
  forall (ref : string) (buildFileUuid : option string) (p : Project),
    let p' := manualRemoval ref buildFileUuid p in
    (forall k, k <> ref -> k <> ref ++ "_comment" ->
               get (PBXFileReference p') k = get (PBXFileReference p) k)
    /\ keysOf (PBXGroup p') = keysOf (PBXGroup p)
    /\ (forall role, keysOf (phasesOf role p') = keysOf (phasesOf role p))
    /\ (forall k group child,
           In (k, group) (records (PBXGroup p)) ->
           In child (children group) ->
           value child <> ref ->
           exists group', In (k, group') (records (PBXGroup p'))
                          /\ In child (children group'))
    /\ (forall role k phase member,
           In (k, phase) (records (phasesOf role p)) ->
           In member (files phase) ->
           buildFileUuid <> Some (value member) ->
           exists phase', In (k, phase') (records (phasesOf role p'))
                          /\ In member (files phase')).
Proof.
  intros ref buildFileUuid p p'. subst p'.
  split; [| split; [| split; [| split]]].
  - intros k H1 H2. simpl. now apply get_deleteWithComment_other.
  - simpl. apply keysOf_filterGroups.
  - intros role. rewrite phasesOf_manualRemoval. apply keysOf_filterPhases.
  - intros k group child Hin Hchild Hneq. eexists. split.
    + simpl. apply records_filterGroups_keeps. exact Hin.
    + simpl. apply filter_In. split; [exact Hchild |].
      apply negb_true_iff, String.eqb_neq. exact Hneq.
  - intros role k phase member Hin Hmember Hneq. eexists. split.
    + rewrite phasesOf_manualRemoval. apply records_filterPhases_keeps. exact Hin.
    + simpl. apply filter_In. split; [exact Hmember |].
      unfold differsFrom. destruct buildFileUuid as [uuid |]; [| reflexivity].
      apply negb_true_iff, String.eqb_neq. congruence.
Qed.

Lemma findFileRef_In (normalizedPath uuid : string) (fileRefs : Table FileReference) :
  findFileRef normalizedPath fileRefs = Some uuid ->
  exists refObj, In (uuid, Obj refObj) fileRefs.
Proof.
  induction fileRefs as [| [k [refObj | c]] rest IH]; simpl; [discriminate | |].
  - destruct (isCommentKey k).
    + intros H. destruct (IH H) as (r & Hr). eauto.
    + destruct (matchesRecord normalizedPath refObj).
      * intros H. inversion H; subst. eauto.
      * intros H. destruct (IH H) as (r & Hr). eauto.
  - destruct (isCommentKey k); intros H; destruct (IH H) as (r & Hr); eauto.
Qed.

Lemma findBuildFile_In (ref uuid : string) (buildFiles : Table BuildFile) :
  findBuildFile ref buildFiles = Some uuid ->
  exists buildFile, In (uuid, Obj buildFile) buildFiles.
Proof.
  induction buildFiles as [| [k [b | c]] rest IH]; simpl; [discriminate | |].
  - destruct (isCommentKey k).
    + intros H. destruct (IH H) as (r & Hr). eauto.
    + destruct (fileRef b =? ref).
      * intros H. inversion H; subst. eauto.
      * intros H. destruct (IH H) as (r & Hr). eauto.
  - destruct (isCommentKey k); intros H; destruct (IH H) as (r & Hr); eauto.
Qed.

Lemma deleteWithComment_not_In (A : Type) (key : string) (e : Entry A) (t : Table A) :
  ~ In (key, e) (deleteWithComment key t).
Proof.
  unfold deleteWithComment, deleteKey. intros H.
  apply filter_In in H as [H _]. apply filter_In in H as [_ H].
  simpl in H. rewrite String.eqb_refl in H. discriminate.
Qed.

(** X16. After a manual removal no search returns the removed file
    reference again, whatever the path, and no search returns the removed
    build file again, whatever the file reference. *)
Theorem manualRemoval_not_found_again :
  forall (ref uuid : string) (p : Project),
    Js.truthy uuid = true ->
    let p' := manualRemoval ref (Some uuid) p in
    (forall normalizedPath, findFileRef normalizedPath (PBXFileReference p') <> Some ref)
    /\ (forall anyRef, findBuildFile anyRef (buildFilesOf p') <> Some uuid).
Proof.
  intros ref uuid p Htruthy p'. subst p'. split.
  - intros normalizedPath H. apply findFileRef_In in H as (r & Hr).
    simpl in Hr. exact (deleteWithComment_not_In _ _ _ Hr).
  - intros anyRef H. unfold buildFilesOf, manualRemoval in H. simpl in H.
    rewrite Htruthy in H.
    destruct (PBXBuildFile p) as [buildFiles |]; simpl in H; [| discriminate].
    apply findBuildFile_In in H as (b & Hb).
    exact (deleteWithComment_not_In _ _ _ Hb).
Qed.

(** Witness for X16: the removal of [A.swift] from [twoTargets]. *)
Lemma manualRemoval_not_found_again_witness :
  findFileRef "A.swift" (PBXFileReference (manualRemoval "F1" (Some "B1") twoTargets))
  <> Some "F1".
Proof.
  exact (proj1 (@manualRemoval_not_found_again "F1" "B1" twoTargets eq_refl) "A.swift").
Defined.

(** ** Names, extensions and what the search accepts *)

Lemma split_free (c : ascii) (s : string) :
  stringForall (isNot c) s = true -> Js.split c s = [s].
Proof.
  induction s as [| a s IH]; simpl; [reflexivity |].
  intros H. apply andb_true_iff in H as [Ha Hs].
  unfold isNot in Ha. apply negb_true_iff in Ha. rewrite Ha.
  now rewrite IH.
Qed.

Lemma pop_after_last (c : ascii) (pre s : string) :
  stringForall (isNot c) s = true ->
  Js.pop (Js.split c (pre ++ String c s)) = s.
Proof.
  intros H. rewrite pop_split_app, split_free by exact H. reflexivity.
Qed.

Lemma length_append (s t : string) :
  String.length (s ++ t) = String.length s + String.length t.
Proof.
  induction s as [| a s IH]; simpl; [reflexivity | now rewrite IH].
Qed.

Lemma endsWith_append (pre suf : string) : Js.endsWith (pre ++ suf) suf = true.
Proof.
  unfold Js.endsWith. rewrite length_append.
  replace (String.length pre + String.length suf - String.length suf)
    with (String.length pre) by lia.
  rewrite substring_append, String.eqb_refl.
  apply andb_true_iff. split; [apply Nat.leb_le; lia | reflexivity].
Qed.

(** X17. The extension of a path is the lowercased text after its last
    dot, so the kind of a file does not depend on the case of its
    extension nor on dots earlier in the path. *)
Theorem extensionOf_last_dot :
  forall (before ext : string),
    stringForall (isNot Js.dot) ext = true ->
    extensionOf (before ++ "." ++ ext) = Js.toLowerCase ext
    /\ classify (extensionOf (before ++ "." ++ ext)) = classify (Js.toLowerCase ext).
Proof.
  intros before ext H.
  assert (E : extensionOf (before ++ "." ++ ext) = Js.toLowerCase ext).
  { unfold extensionOf.
    change (before ++ "." ++ ext) with (before ++ String Js.dot ext).
    now rewrite pop_after_last. }
  split; [exact E | now rewrite E].
Qed.

(** Witness for X17: an upper-case extension after a dotted directory. *)
Lemma extensionOf_last_dot_witness :
  classify (extensionOf "My.App/Main.SWIFT") = Source.
Proof.
  exact (proj2 (@extensionOf_last_dot "My.App/Main" "SWIFT" eq_refl)).
Defined.

Lemma findFileRef_some (normalizedPath k stored : string) (refObj : FileReference)
  (fileRefs : Table FileReference) :
  In (k, refObj) (records fileRefs) ->
  refPathOf refObj = Some stored ->
  matchesPath normalizedPath stored = true ->
  exists found, findFileRef normalizedPath fileRefs = Some found.
Proof.
  intros Hin Hpath Hmatch. rewrite findFileRef_find.
  destruct (find (recordPasses (matchesPath normalizedPath)) (records fileRefs))
    as [[found r] |] eqn:Hfind.
  - exists found. reflexivity.
  - exfalso. pose proof (find_none _ _ Hfind _ Hin) as Hnone.
    unfold recordPasses in Hnone. simpl in Hnone. rewrite Hpath in Hnone. congruence.
Qed.

(** X18. A request to remove [ios/dir/file] finds a record whenever the
    project has a file record stored under [dir/file], under the bare
    [file], or under the same [file] in any other directory: the name
    alone is enough for a record to be taken. *)
Theorem findFileRef_by_name :
  forall (dir file stored k : string) (refObj : FileReference)
         (fileRefs : Table FileReference),
    stringForall (isNot Js.slash) file = true ->
    In (k, refObj) (records fileRefs) ->
    refPathOf refObj = Some stored ->
    (stored = dir ++ "/" ++ file
     \/ stored = file
     \/ exists other, stored = other ++ "/" ++ file) ->
    exists found,
      findFileRef (normalizePath ("ios/" ++ dir ++ "/" ++ file)) fileRefs = Some found.
Proof.
  intros dir file stored k refObj fileRefs Hfile Hin Hpath Hshape.
  rewrite normalizePath_strips.
  assert (Hbase : baseName (dir ++ "/" ++ file) = file).
  { unfold baseName. change (dir ++ "/" ++ file) with (dir ++ String Js.slash file).
    now apply pop_after_last. }
  eapply findFileRef_some; [exact Hin | exact Hpath |].
  unfold matchesPath. rewrite Hbase.
  destruct Hshape as [-> | [-> | (other & ->)]].
  - now rewrite String.eqb_refl.
  - rewrite String.eqb_refl. now rewrite orb_true_r.
  - rewrite (endsWith_append other ("/" ++ file)). now rewrite !orb_true_r.
Qed.

(** Witness for X18: [Foo.swift] asked for under [App], stored under [lib]. *)
Lemma findFileRef_by_name_witness :
  exists found, findFileRef (normalizePath "ios/App/Foo.swift") twoFoo = Some found.
Proof.
  apply (@findFileRef_by_name "App" "Foo.swift" "lib/Foo.swift" "F1"
           {| path := Some "lib/Foo.swift"; name := None |} twoFoo).
  - reflexivity.
  - left. reflexivity.
  - reflexivity.
  - right. right. exists "lib". reflexivity.
Defined.

(** X19. For a file that the file list of the diff does not name, the tool
    answers that the file has no changes. *)
Theorem get_file_specific_diff_unlisted :
  forall (network : string -> Outcome string)
         (fileName fromVersion toVersion diffContent : string) (cache cache' : Cache),
    fetchDiffWithCache network fromVersion toVersion cache
    = (cache', Returned diffContent) ->
    ~ In fileName (parseFilesFromDiff diffContent) ->
    get_file_specific_diff network fileName fromVersion toVersion cache
    = (cache', "No changes found for file: " ++ fileName).
Proof.
  intros network fileName fromVersion toVersion diffContent cache cache' Hfetch Hnot.
  assert (Hempty : extractFileDiff diffContent fileName = EmptyString).
  { unfold extractFileDiff. rewrite extractLoop_no_header; [reflexivity |].
    intros line Hline. destruct (isHeaderOf fileName line) eqn:E; [| reflexivity].
    exfalso. apply Hnot. apply parseFilesFromDiff_NoDup_In, pushedFiles_In. eauto. }
  unfold get_file_specific_diff. now rewrite Hfetch, Hempty.
Qed.

(** Witness for X19: a file absent from a cached diff. *)
Lemma get_file_specific_diff_unlisted_witness :
  get_file_specific_diff (fun _ => Thrown (ErrorObject "offline")) "B" "0.72.0" "0.73.0"
    [("0.72.0..0.73.0", "diff --git a/A b/A")]
  = ([("0.72.0..0.73.0", "diff --git a/A b/A")], "No changes found for file: B").
Proof.
  apply (@get_file_specific_diff_unlisted _ "B" "0.72.0" "0.73.0" "diff --git a/A b/A").
  - reflexivity.
  - vm_compute. intros [H | []]. discriminate H.
Defined.
